(** * Relayer: connection handshake, retry loop, packet messages, paired queries

    A shallow embedding of the relayer's handshake engine:
    - [Path]: the [PathEnd] message constructors (UpdateClient, ConnInit,
      ConnConfirm, NewPacket, MsgRecvPacket, MsgTimeout, MsgAck);
    - [Relayer]: the paired, errgroup-based fetches (QueryLatestHeights,
      QueryConnectionPair, GetIBCUpdateHeaders), then InitializeConnection,
      ExecuteConnectionStep and CreateOpenConnections;
    - [Scenario]: two concrete chains and a world for them;
    - [PathMsgs]: the remaining builders of path.go (connection and channel
      handshake, transfer, PacketMsg, the channel order);
    - [Query]: QueryChannelPair, GetLightSignedHeadersAtHeights,
      QueryChannel, QueryTMClientState and CastClientStateToTMType;
    - [Account]: the account retriever of the cosmos provider;
    - [Lite]: the lite start, delete, header and validators commands;
    - [Examples]: concrete worlds for these.

    Go's fixed-width integers are integers of [Z] with the wrap-around written
    out.  Everything the functions call but that lives outside the files at
    hand (chain RPCs, the light-client header sync, event parsing, the signer
    address, package constants) is taken from an environment record, one per
    step.  Pointers to responses and headers are taken to be non-nil wherever
    the code dereferences them.  Logging and the passing of time (ticker,
    sleep) are not modelled. *)

From Stdlib Require Import ZArith List String Bool Lia.
Import ListNotations.
Local Open Scope Z_scope.
Local Open Scope string_scope.

(** ** Machine integers *)

Definition two64 : Z := 2 ^ 64.
Definition maxUint64 : Z := two64 - 1.

(** [uint64] arithmetic wraps modulo 2^64. *)
Definition wrap64 (z : Z) : Z := z mod two64.
Definition add64 (a b : Z) : Z := wrap64 (a + b).

(** Conversion to [int64] and [int64] subtraction (two's complement). *)
Definition toInt64 (z : Z) : Z := (z + 2 ^ 63) mod two64 - 2 ^ 63.
Definition sub_int64 (a b : Z) : Z := toInt64 (a - b).

(** A Go [error] value is its message; [None] is [nil]. *)
Definition error := string.
Definition Address := string.
Definition bytes := list Byte.byte.

(** A call that yields either a value or a non-nil error. *)
Inductive Result (A : Type) : Type :=
| Ok (a : A)
| Err (e : error).
Arguments Ok {A} a.
Arguments Err {A} e.

(** ** path.go *)

Module Path.

Record PathEnd := mkPathEnd {
  ChainID : string;
  ClientID : string;
  ConnectionID : string;
  ChannelID : string;
  PortID : string;
  Order : string
}.

Definition setConnectionID (pe : PathEnd) (id : string) : PathEnd :=
  mkPathEnd (ChainID pe) (ClientID pe) id (ChannelID pe) (PortID pe) (Order pe).

(** conntypes.State *)
Inductive State := UNINITIALIZED | INIT | TRYOPEN | OPEN.

Definition State_eqb (a b : State) : bool :=
  match a, b with
  | UNINITIALIZED, UNINITIALIZED | INIT, INIT
  | TRYOPEN, TRYOPEN | OPEN, OPEN => true
  | _, _ => false
  end.

(** chanTypes.Packet, fields in the order of chanTypes.NewPacket. *)
Record Packet := NewChanPacket {
  Data : bytes;
  Sequence : Z;
  SourcePort : string;
  SourceChannel : string;
  DestinationPort : string;
  DestinationChannel : string;
  TimeoutHeight : Z;
  TimeoutTimestamp : Z
}.

Section Messages.

(** The light-client header, the merkle proof and the commitment prefix are
    left abstract. *)
Context {Header Proof Prefix : Type}.

(** The answer to a connection query, as far as the relayer reads it: the
    connection end's state, the proof and the height of the proof. *)
Record ConnectionResponse := mkConnectionResponse {
  ConnState : State;
  ConnProof : Proof;
  ConnProofHeight : Z
}.

(** The sdk.Msg values the constructors below build, one variant per
    [New...] constructor of the SDK, arguments in the SDK's order. *)
Inductive Msg :=
| NewMsgUpdateClient (clientID : string) (header : Header) (signer : Address)
| NewMsgConnectionOpenInit (connectionID clientID counterpartyConnectionID
    counterpartyClientID : string) (counterpartyPrefix : Prefix)
    (signer : Address)
| NewMsgConnectionOpenTry (connectionID clientID counterpartyConnectionID
    counterpartyClientID : string) (counterpartyPrefix : Prefix)
    (counterpartyVersions : list string) (proofInit proofConsensus : Proof)
    (proofHeight consensusHeight : Z) (signer : Address)
| NewMsgConnectionOpenAck (connectionID : string)
    (proofTry proofConsensus : Proof) (proofHeight consensusHeight : Z)
    (version : string) (signer : Address)
| NewMsgConnectionOpenConfirm (connectionID : string) (proofAck : Proof)
    (proofHeight : Z) (signer : Address)
| NewMsgPacket (packet : Packet) (proof : Proof) (proofHeight : Z)
    (signer : Address)
| NewMsgTimeout (packet : Packet) (nextSequenceRecv : Z) (proof : Proof)
    (proofHeight : Z) (signer : Address)
| NewMsgAcknowledgement (packet : Packet) (acknowledgement : bytes)
    (proof : Proof) (proofHeight : Z) (signer : Address).

(** The proof-height field of a message that carries one. *)
Definition msgProofHeight (m : Msg) : option Z :=
  match m with
  | NewMsgUpdateClient _ _ _ => None
  | NewMsgConnectionOpenInit _ _ _ _ _ _ => None
  | NewMsgConnectionOpenTry _ _ _ _ _ _ _ _ h _ _ => Some h
  | NewMsgConnectionOpenAck _ _ _ h _ _ _ => Some h
  | NewMsgConnectionOpenConfirm _ _ h _ => Some h
  | NewMsgPacket _ _ h _ => Some h
  | NewMsgTimeout _ _ _ h _ => Some h
  | NewMsgAcknowledgement _ _ _ h _ => Some h
  end.

Variable defaultChainPrefix : Prefix.

(** UpdateClient creates an sdk.Msg to update the client on src with data
    pulled from dst. *)
Definition UpdateClient (pe : PathEnd) (dstHeader : Header)
    (signer : Address) : Msg :=
  NewMsgUpdateClient (ClientID pe) dstHeader signer.

(** ConnInit creates a MsgConnectionOpenInit. *)
Definition ConnInit (pe dst : PathEnd) (signer : Address) : Msg :=
  NewMsgConnectionOpenInit (ConnectionID pe) (ClientID pe) (ConnectionID dst)
    (ClientID dst) defaultChainPrefix signer.

(** ConnConfirm creates a MsgConnectionOpenConfirm. *)
Definition ConnConfirm (pe : PathEnd) (dstConnState : ConnectionResponse)
    (signer : Address) : Msg :=
  NewMsgConnectionOpenConfirm (ConnectionID pe) (ConnProof dstConnState)
    (add64 (ConnProofHeight dstConnState) 1) signer.

(** NewPacket returns a new packet from pe to dst. *)
Definition NewPacket (pe dst : PathEnd) (sequence : Z) (packetData : bytes)
    (timeoutHeight timeoutStamp : Z) : Packet :=
  NewChanPacket packetData sequence (PortID pe) (ChannelID pe) (PortID dst)
    (ChannelID dst) timeoutHeight timeoutStamp.

(** MsgRecvPacket creates a MsgPacket; the packet runs from dst to pe. *)
Definition MsgRecvPacket (pe dst : PathEnd)
    (sequence timeoutHeight timeoutStamp : Z) (packetData : bytes)
    (proof : Proof) (proofHeight : Z) (signer : Address) : Msg :=
  NewMsgPacket (NewPacket dst pe sequence packetData timeoutHeight timeoutStamp)
    proof (add64 proofHeight 1) signer.

(** MsgTimeout creates MsgTimeout. *)
Definition MsgTimeout (pe dst : PathEnd) (packetData : bytes)
    (seq timeout timeoutStamp : Z) (proof : Proof) (proofHeight : Z)
    (signer : Address) : Msg :=
  NewMsgTimeout (NewPacket pe dst seq packetData timeout timeoutStamp) seq proof
    (add64 proofHeight 1) signer.

(** MsgAck creates MsgAck. *)
Definition MsgAck (pe dst : PathEnd)
    (sequence timeoutHeight timeoutStamp : Z) (ack packetData : bytes)
    (proof : Proof) (proofHeight : Z) (signer : Address) : Msg :=
  NewMsgAcknowledgement
    (NewPacket pe dst sequence packetData timeoutHeight timeoutStamp) ack
    proof (add64 proofHeight 1) signer.

End Messages.

Arguments ConnectionResponse : clear implicits.
Arguments Msg : clear implicits.

End Path.

(** ** The relayer package: chains, the outside world, queries, handshake *)

Module Relayer.
Import Path.

(** Which of the two chains handed to a function a submission went to. *)
Inductive Side := Src | Dst.

(** A Go runtime panic; the only one modelled is the slice index check. *)
Inductive PanicKind :=
| IndexOutOfRange (index length : nat).

Inductive Outcome (A : Type) : Type :=
| Ret (a : A)
| Panic (k : PanicKind).
Arguments Ret {A} a.
Arguments Panic {A} k.

Section World.

Context {Header Proof Prefix SyncHeaders Events Provider : Type}.

Abbreviation Msg := (Path.Msg Header Proof Prefix).
Abbreviation ConnectionResponse := (Path.ConnectionResponse Proof).

(** A configured chain: its identifier, its end of the path, the handle of
    its provider and the debug flag. *)
Record Chain := mkChain {
  chainID : string;
  pathEnd : PathEnd;
  ChainProvider : Provider;
  debug : bool
}.

Definition setChainConnectionID (c : Chain) (id : string) : Chain :=
  mkChain (chainID c) (setConnectionID (pathEnd c) id) (ChainProvider c)
    (debug c).

(** sdk.TxResponse, as far as the handshake reads it. *)
Record ABCIMessageLog := mkLog { LogEvents : Events }.
Record TxResponse := mkTxResponse { Logs : list ABCIMessageLog }.

(** What the world answers during one step.  Every field stands for a
    function or method the relayer calls and that is defined elsewhere; a
    provider call answers with Go's pair of a value and an error. *)
Record Env := mkEnv {
  (* errgroup scheduling: is the first goroutine's error recorded first? *)
  srcFirst : bool;
  (* provider.ChainProvider *)
  QueryLatestHeight : Provider -> Z * option error;
  QueryConnection : Provider -> Z -> string ->
                    ConnectionResponse * option error;
  GetIBCUpdateHeader : Provider -> Z -> Provider -> string ->
                       option Header * option error;
  (* header synchronisation *)
  NewSyncHeaders : Chain -> Chain -> Result SyncHeaders;
  GetTrustedHeaders : SyncHeaders -> Chain -> Chain ->
                      Result (Header * Header);
  GetHeight : SyncHeaders -> string -> Z;
  GetLatestLightHeights : Chain -> Chain -> Result (Z * Z);
  (* message builders that query the counterparty for proofs *)
  ConnTry : PathEnd -> Chain -> SyncHeaders -> Address -> Result Msg;
  ConnAck : PathEnd -> Chain -> SyncHeaders -> Address -> Result Msg;
  (* the chain's signer, submission, event parsing, validation *)
  MustGetAddress : Chain -> Address;
  SendMsgs : Chain -> list Msg -> TxResponse * bool * option error;
  ParseConnectionIDFromEvents : Events -> Result string;
  ValidateClientPaths : Chain -> Chain -> option error;
  defaultChainPrefix : Prefix
}.

(** One call of SendMsgs: the chain it was called on and the bundle. *)
Record Submission := mkSubmission {
  on : Side;
  msgs : list Msg
}.

(** The result of running a function that may write the two chains'
    PathEnds and submit transactions. *)
Record Exec (A : Type) := mkExec {
  value : Outcome A;
  srcAfter : Chain;
  dstAfter : Chain;
  sent : list Submission
}.
Arguments mkExec {A} value srcAfter dstAfter sent.
Arguments value {A} e.
Arguments srcAfter {A} e.
Arguments dstAfter {A} e.
Arguments sent {A} e.

(** *** query.go *)

(** errgroup.Group.Wait after two Go calls: both functions have run, and the
    error returned is the first non-nil one that was recorded. *)
Definition errgroupWait (firstFirst : bool) (e1 e2 : option error)
    : option error :=
  if firstFirst
  then match e1 with Some e => Some e | None => e2 end
  else match e2 with Some e => Some e | None => e1 end.

(** QueryLatestHeights returns the heights of multiple chains at once. *)
Definition QueryLatestHeights (env : Env) (src dst : Chain)
    : Z * Z * option error :=
  let '(srch, err1) := QueryLatestHeight env (ChainProvider src) in
  let '(dsth, err2) := QueryLatestHeight env (ChainProvider dst) in
  (srch, dsth, errgroupWait (srcFirst env) err1 err2).

(** QueryConnectionPair returns a pair of connection responses. *)
Definition QueryConnectionPair (env : Env) (src dst : Chain) (srcH dstH : Z)
    : ConnectionResponse * ConnectionResponse * option error :=
  let '(srcConn, err1) :=
    QueryConnection env (ChainProvider src) srcH (ConnectionID (pathEnd src)) in
  let '(dstConn, err2) :=
    QueryConnection env (ChainProvider dst) dstH (ConnectionID (pathEnd dst)) in
  (srcConn, dstConn, errgroupWait (srcFirst env) err1 err2).

(** GetIBCUpdateHeaders returns a pair of IBC update headers which can be
    used to update an on chain light client. *)
Definition GetIBCUpdateHeaders (env : Env) (srch dsth : Z)
    (src dst : Provider) (srcClientID dstClientID : string)
    : option Header * option Header * option error :=
  let '(srcHeader, err1) := GetIBCUpdateHeader env src srch dst dstClientID in
  let '(dstHeader, err2) := GetIBCUpdateHeader env dst dsth src srcClientID in
  match errgroupWait (srcFirst env) err1 err2 with
  | Some err => (None, None, Some err)
  | None => (srcHeader, dstHeader, None)
  end.

(** *** connection.go *)

Definition isEmpty (s : string) : bool := String.eqb s "".

Definition otherSide (side : Side) : Side :=
  match side with Src => Dst | Dst => Src end.

Definition chainOf (side : Side) (src dst : Chain) : Chain :=
  match side with Src => src | Dst => dst end.

(** The statements that end each of the three submitting cases of
    InitializeConnection, for the chain [side] the case works on: submit the
    bundle there; on success read the events of the second log, parse the
    connection identifier out of them and store it in that chain's PathEnd. *)
Definition sendAndSetConnectionID (env : Env) (side : Side)
    (src dst : Chain) (bundle : list Msg) : Exec (bool * option error) :=
  let '(res, success, err) := SendMsgs env (chainOf side src dst) bundle in
  let submitted := [mkSubmission side bundle] in
  if negb success then mkExec (Ret (false, err)) src dst submitted
  else
    match nth_error (Logs res) 1 with
    | None =>
        mkExec (Panic (IndexOutOfRange 1 (List.length (Logs res)))) src dst
          submitted
    | Some log =>
        match ParseConnectionIDFromEvents env (LogEvents log) with
        | Err e => mkExec (Ret (false, Some e)) src dst submitted
        | Ok connectionID =>
            match side with
            | Src =>
                mkExec (Ret (true, None))
                  (setChainConnectionID src connectionID) dst submitted
            | Dst =>
                mkExec (Ret (true, None)) src
                  (setChainConnectionID dst connectionID) submitted
            end
        end
    end.

(** InitializeConnection creates a new connection on either the source or
    destination chain. *)
Definition InitializeConnection (env : Env) (src dst : Chain)
    (srcUpdateHeader dstUpdateHeader : Header) (sh : SyncHeaders)
    : Exec (bool * option error) :=
  let srcID := ConnectionID (pathEnd src) in
  let dstID := ConnectionID (pathEnd dst) in
  (* OpenInit on source: neither connection has been initialized *)
  if isEmpty srcID && isEmpty dstID then
    sendAndSetConnectionID env Src src dst
      [ UpdateClient (pathEnd src) dstUpdateHeader (MustGetAddress env src);
        ConnInit (defaultChainPrefix env) (pathEnd src) (pathEnd dst)
          (MustGetAddress env src) ]
  (* OpenTry on source *)
  else if isEmpty srcID && negb (isEmpty dstID) then
    match ConnTry env (pathEnd src) dst sh (MustGetAddress env src) with
    | Err e => mkExec (Ret (false, Some e)) src dst []
    | Ok openTry =>
        sendAndSetConnectionID env Src src dst
          [ UpdateClient (pathEnd src) dstUpdateHeader
              (MustGetAddress env src);
            openTry ]
    end
  (* OpenTry on counterparty *)
  else if negb (isEmpty srcID) && isEmpty dstID then
    match ConnTry env (pathEnd dst) src sh (MustGetAddress env dst) with
    | Err e => mkExec (Ret (false, Some e)) src dst []
    | Ok openTry =>
        sendAndSetConnectionID env Dst src dst
          [ UpdateClient (pathEnd dst) srcUpdateHeader
              (MustGetAddress env dst);
            openTry ]
    end
  else
    mkExec (Ret (false, Some "connection ends already created")) src dst [].

(** The switch of ExecuteConnectionStep over the two observed connection
    states: the bundle to submit and the [last] flag, or the error of the
    message builder.  Without a matching case the bundle stays nil. *)
Definition connectionSwitch (env : Env) (sh : SyncHeaders) (src dst : Chain)
    (srcUpdateHeader dstUpdateHeader : Header)
    (srcConn dstConn : ConnectionResponse) : Result (list Msg * bool) :=
  let s := ConnState srcConn in
  let d := ConnState dstConn in
  (* OpenTry on source if both connections are at INIT (crossing hellos) *)
  if State_eqb s INIT && State_eqb d INIT then
    match ConnTry env (pathEnd src) dst sh (MustGetAddress env src) with
    | Err e => Err e
    | Ok openTry =>
        Ok ([ UpdateClient (pathEnd src) dstUpdateHeader
                (MustGetAddress env src);
              openTry ], false)
    end
  (* OpenAck on source if dst is at TRYOPEN and src is on INIT or TRYOPEN *)
  else if (State_eqb s INIT || State_eqb s TRYOPEN) && State_eqb d TRYOPEN
  then
    match ConnAck env (pathEnd src) dst sh (MustGetAddress env src) with
    | Err e => Err e
    | Ok openAck =>
        Ok ([ UpdateClient (pathEnd src) dstUpdateHeader
                (MustGetAddress env src);
              openAck ], false)
    end
  (* OpenAck on counterparty *)
  else if State_eqb s TRYOPEN && State_eqb d INIT then
    match ConnAck env (pathEnd dst) src sh (MustGetAddress env dst) with
    | Err e => Err e
    | Ok openAck =>
        Ok ([ UpdateClient (pathEnd dst) srcUpdateHeader
                (MustGetAddress env dst);
              openAck ], false)
    end
  (* OpenConfirm on source *)
  else if State_eqb s TRYOPEN && State_eqb d OPEN then
    Ok ([ UpdateClient (pathEnd src) dstUpdateHeader (MustGetAddress env src);
          ConnConfirm (pathEnd src) dstConn (MustGetAddress env src) ], true)
  (* OpenConfirm on counterparty *)
  else if State_eqb s OPEN && State_eqb d TRYOPEN then
    Ok ([ UpdateClient (pathEnd dst) srcUpdateHeader (MustGetAddress env dst);
          ConnConfirm (pathEnd dst) srcConn (MustGetAddress env dst) ], true)
  else Ok ([], false).

(** ExecuteConnectionStep executes the next connection step based on the
    states of two connection ends.  The booleans returned indicate if the
    message was successfully executed and if this was the last handshake
    step. *)
Definition ExecuteConnectionStep (env : Env) (src dst : Chain)
    : Exec (bool * bool * option error) :=
  match NewSyncHeaders env src dst with
  | Err e => mkExec (Ret (false, false, Some e)) src dst []
  | Ok sh =>
    match GetTrustedHeaders env sh src dst with
    | Err e => mkExec (Ret (false, false, Some e)) src dst []
    | Ok (srcUpdateHeader, dstUpdateHeader) =>
      if isEmpty (ConnectionID (pathEnd src))
         || isEmpty (ConnectionID (pathEnd dst))
      then
        let r :=
          InitializeConnection env src dst srcUpdateHeader dstUpdateHeader sh
        in
        match value r with
        | Panic k => mkExec (Panic k) (srcAfter r) (dstAfter r) (sent r)
        | Ret (_, Some e) =>
            mkExec (Ret (false, false, Some e)) (srcAfter r) (dstAfter r)
              (sent r)
        | Ret (success, None) =>
            mkExec (Ret (success, false, None)) (srcAfter r) (dstAfter r)
              (sent r)
        end
      else
        let '(srcConn, dstConn, err) :=
          QueryConnectionPair env src dst
            (sub_int64 (toInt64 (GetHeight env sh (chainID src))) 1)
            (sub_int64 (toInt64 (GetHeight env sh (chainID dst))) 1) in
        match err with
        | Some e => mkExec (Ret (false, false, Some e)) src dst []
        | None =>
          match connectionSwitch env sh src dst srcUpdateHeader
                  dstUpdateHeader srcConn dstConn with
          | Err e => mkExec (Ret (false, false, Some e)) src dst []
          | Ok (bundle, last) =>
              let '(_, success, err) := SendMsgs env dst bundle in
              if negb success
              then mkExec (Ret (false, false, err)) src dst
                     [mkSubmission Dst bundle]
              else mkExec (Ret (true, last, None)) src dst
                     [mkSubmission Dst bundle]
          end
        end
    end
  end.

(** The error CreateOpenConnections returns when the retries are used up. *)
Definition connectionFailed (c dst : Chain) : error :=
  "! Connection failed: [" ++ chainID c ++ "]client{"
    ++ ClientID (pathEnd c) ++ "}conn{" ++ ConnectionID (pathEnd c)
    ++ "} -> [" ++ chainID dst ++ "]client{" ++ ClientID (pathEnd dst)
    ++ "}conn{" ++ ConnectionID (pathEnd dst) ++ "}".

(** How one pass through the loop body of CreateOpenConnections ends: the
    loop goes on with a failure counter, or the function returns. *)
Inductive Tick :=
| Continue (failed : Z)
| Return (err : option error) (failed : Z).

(** The body of the for loop of CreateOpenConnections. *)
Definition loopBody (env : Env) (maxRetries failed : Z) (c dst : Chain)
    : Exec Tick :=
  let r := ExecuteConnectionStep env c dst in
  let c' := srcAfter r in
  let dst' := dstAfter r in
  let done t := mkExec (Ret t) c' dst' (sent r) in
  match value r with
  | Panic k => mkExec (Panic k) c' dst' (sent r)
  | Ret (_, _, Some err) => done (Return (Some err) failed)
  | Ret (success, lastStep, None) =>
      if success && lastStep then
        if debug c' then
          match GetLatestLightHeights env c' dst' with
          | Err err => done (Return (Some err) failed)
          | Ok (srcH, dstH) =>
              match QueryConnectionPair env c' dst' srcH dstH with
              | (_, _, Some err) => done (Return (Some err) failed)
              | (_, _, None) => done (Return None failed)
              end
          end
        else done (Return None failed)
      else if success then done (Continue 0)
      else
        let failed := add64 failed 1 in
        if failed >? maxRetries
        then done (Return (Some (connectionFailed c' dst')) failed)
        else done (Continue failed)
  end.

(** What a run of CreateOpenConnections amounts to. *)
Inductive Ending :=
| Returned (err : option error)
| Panicked (k : PanicKind)
| StillRunning.

Record Run := mkRun {
  ending : Ending;
  attempts : nat;          (* calls of ExecuteConnectionStep *)
  failures : Z;            (* the failure counter at the end *)
  srcEnd : Chain;
  dstEnd : Chain;
  submitted : list Submission
}.

(** The for loop, [fuel] ticks of it; the world at tick [n] is [envs n]. *)
Fixpoint connectionLoop (fuel : nat) (envs : nat -> Env) (maxRetries : Z)
    (n : nat) (failed : Z) (c dst : Chain) (log : list Submission) : Run :=
  match fuel with
  | O => mkRun StillRunning n failed c dst log
  | S fuel' =>
      let r := loopBody (envs n) maxRetries failed c dst in
      let log' := (log ++ sent r)%list in
      match value r with
      | Panic k => mkRun (Panicked k) (S n) failed (srcAfter r) (dstAfter r) log'
      | Ret (Return err failed') =>
          mkRun (Returned err) (S n) failed' (srcAfter r) (dstAfter r) log'
      | Ret (Continue failed') =>
          connectionLoop fuel' envs maxRetries (S n) failed' (srcAfter r)
            (dstAfter r) log'
      end
  end.

(** CreateOpenConnections runs the connection creation messages on timeout
    until they pass. *)
Definition CreateOpenConnections (fuel : nat) (envs : nat -> Env)
    (c dst : Chain) (maxRetries : Z) : Run :=
  match ValidateClientPaths (envs O) c dst with
  | Some err => mkRun (Returned (Some err)) O 0 c dst []
  | None => connectionLoop fuel envs maxRetries O 0 c dst []
  end.

(** *** Vocabulary of the statements below *)

(** [c'] is [c] up to the connection identifier of its PathEnd. *)
Definition sameButConnectionID (c c' : Chain) : Prop :=
  chainID c' = chainID c /\ ChainProvider c' = ChainProvider c
  /\ debug c' = debug c
  /\ ChainID (pathEnd c') = ChainID (pathEnd c)
  /\ ClientID (pathEnd c') = ClientID (pathEnd c)
  /\ ChannelID (pathEnd c') = ChannelID (pathEnd c)
  /\ PortID (pathEnd c') = PortID (pathEnd c)
  /\ Order (pathEnd c') = Order (pathEnd c).

(** The step gets as far as its switch: the headers were synchronised to
    [sh], the update headers are [srcHeader] and [dstHeader], both connection
    identifiers are set, and the pair of queries answered [srcConn] and
    [dstConn]. *)
Definition observes (env : Env) (src dst : Chain) (sh : SyncHeaders)
    (srcHeader dstHeader : Header) (srcConn dstConn : ConnectionResponse)
    : Prop :=
  NewSyncHeaders env src dst = Ok sh
  /\ GetTrustedHeaders env sh src dst = Ok (srcHeader, dstHeader)
  /\ isEmpty (ConnectionID (pathEnd src)) = false
  /\ isEmpty (ConnectionID (pathEnd dst)) = false
  /\ QueryConnectionPair env src dst
       (sub_int64 (toInt64 (GetHeight env sh (chainID src))) 1)
       (sub_int64 (toInt64 (GetHeight env sh (chainID dst))) 1)
     = (srcConn, dstConn, None).

(** The two state pairs whose case sets [last]. *)
Definition terminalPair (s d : State) : bool :=
  (State_eqb s TRYOPEN && State_eqb d OPEN)
  || (State_eqb s OPEN && State_eqb d TRYOPEN).

(** The state pairs some case of the switch is written for. *)
Definition tableRow (s d : State) : bool :=
  (State_eqb s INIT && State_eqb d INIT)
  || ((State_eqb s INIT || State_eqb s TRYOPEN) && State_eqb d TRYOPEN)
  || (State_eqb s TRYOPEN && State_eqb d INIT)
  || terminalPair s d.

(** [m] is a handshake message of the PathEnd [pe] towards the chain [cp]:
    what ConnInit, ConnTry, ConnAck or ConnConfirm gives for [pe]. *)
Definition handshakeFor (env : Env) (pe : PathEnd) (cp : Chain)
    (sh : SyncHeaders) (signer : Address) (m : Msg) : Prop :=
  m = ConnInit (defaultChainPrefix env) pe (pathEnd cp) signer
  \/ ConnTry env pe cp sh signer = Ok m
  \/ ConnAck env pe cp sh signer = Ok m
  \/ exists conn, m = ConnConfirm pe conn signer.

(** A bundle for the chain [self], whose counterparty [cp] has the update
    header [cpHeader]: the client update first, the handshake message
    second. *)
Definition updateThenHandshake (env : Env) (self cp : Chain)
    (sh : SyncHeaders) (cpHeader : Header) (bundle : list Msg) : Prop :=
  exists m,
    bundle = [ UpdateClient (pathEnd self) cpHeader (MustGetAddress env self);
               m ]
    /\ handshakeFor env (pathEnd self) cp sh (MustGetAddress env self) m.

End World.

Arguments Chain : clear implicits.
Arguments Env : clear implicits.
Arguments Submission : clear implicits.
Arguments Exec : clear implicits.
Arguments TxResponse : clear implicits.
Arguments ABCIMessageLog : clear implicits.
Arguments mkExec {Header Proof Prefix Provider A} value srcAfter dstAfter sent.
Arguments value {Header Proof Prefix Provider A} e.
Arguments srcAfter {Header Proof Prefix Provider A} e.
Arguments dstAfter {Header Proof Prefix Provider A} e.
Arguments sent {Header Proof Prefix Provider A} e.

End Relayer.

(** ** A concrete world: two chains named as in the README *)

Module Scenario.
Import Path Relayer.

Definition World := Env string string string (Z * Z) string string.
Definition chain (id client conn : string) : Chain string :=
  mkChain id (mkPathEnd id client conn "" "" "") id false.

Definition ibc0 : Chain string := chain "ibc0" "ibconeclient" "ibconeconn".
Definition ibc1 : Chain string := chain "ibc1" "ibczeroclient" "ibczeroconn".

Definition openTry (pe : PathEnd) (cp : Chain string) (signer : Address)
    : Path.Msg string string string :=
  NewMsgConnectionOpenTry (ConnectionID pe) (ClientID pe)
    (ConnectionID (pathEnd cp)) (ClientID (pathEnd cp)) "ibc" ["1.0.0"]
    "proof-init" "proof-consensus" 10 10 signer.

Definition openAck (pe : PathEnd) (signer : Address)
    : Path.Msg string string string :=
  NewMsgConnectionOpenAck (ConnectionID pe) "proof-try" "proof-consensus" 10
    10 "1.0.0" signer.

(** Both chains stand at height 10; chain ibc0 reports the connection state
    [srcState], every other chain [dstState]; every submission is answered
    with [answer]. *)
Definition world (srcState dstState : State)
    (answer : TxResponse string * bool * option error) : World :=
  mkEnv true
    (fun _ => (10, None))
    (fun p _ _ =>
       (mkConnectionResponse
          (if String.eqb p "ibc0" then srcState else dstState) "proof" 9,
        None))
    (fun p _ _ _ => (Some ("header of " ++ p), None))
    (fun _ _ => Ok (10, 10))
    (fun _ s d => Ok ("header of " ++ chainID s, "header of " ++ chainID d))
    (fun _ _ => 10)
    (fun _ _ => Ok (10, 10))
    (fun pe cp _ signer => Ok (openTry pe cp signer))
    (fun pe _ _ signer => Ok (openAck pe signer))
    (fun c => "relayer on " ++ chainID c)
    (fun _ _ => answer)
    (fun ev => if isEmpty ev then Err "no connection identifier" else Ok ev)
    (fun _ _ => None)
    "ibc".

(** The same chains before any connection exists on them. *)
Definition fresh0 : Chain string := chain "ibc0" "ibconeclient" "".
Definition fresh1 : Chain string := chain "ibc1" "ibczeroclient" "".

(** [base] with the provider [down] out of reach: its height and header
    fetches fail. *)
Definition unreachable (down : string) (base : World) : World :=
  mkEnv (srcFirst base)
    (fun p =>
       if String.eqb p down then (0, Some "connection refused")
       else QueryLatestHeight base p)
    (QueryConnection base)
    (fun p h cp id =>
       if String.eqb p down then (None, Some "connection refused")
       else GetIBCUpdateHeader base p h cp id)
    (NewSyncHeaders base) (GetTrustedHeaders base) (GetHeight base)
    (GetLatestLightHeights base) (ConnTry base) (ConnAck base)
    (MustGetAddress base) (SendMsgs base) (ParseConnectionIDFromEvents base)
    (ValidateClientPaths base) (defaultChainPrefix base).

(** What [world] synchronises to and answers. *)
Definition sh : Z * Z := (10, 10).
Definition h0 : string := "header of ibc0".
Definition h1 : string := "header of ibc1".
Definition conn (s : State) : Path.ConnectionResponse string :=
  mkConnectionResponse s "proof" 9.

Definition twoLogs : TxResponse string :=
  mkTxResponse [mkLog "update_client"; mkLog "connection-7"].
Definition oneLog : TxResponse string := mkTxResponse [mkLog "update_client"].

Definition accepted : TxResponse string * bool * option error :=
  (twoLogs, true, None).
Definition rejected : TxResponse string * bool * option error :=
  (mkTxResponse [], false, None).
Definition refused : TxResponse string * bool * option error :=
  (mkTxResponse [], false, Some "submission failed").

End Scenario.

(** ** path.go, the remaining message builders *)

Module PathMsgs.
Import Path.

(** ibctypes.Order *)
Inductive IBCOrder := NONE | UNORDERED | ORDERED.

(** OrderFromString parses a string into a channel order byte. *)
Definition OrderFromString (order : string) : IBCOrder :=
  if String.eqb order "UNORDERED" then UNORDERED
  else if String.eqb order "ORDERED" then ORDERED
  else NONE.

(** strings.ToUpper on a string of ASCII characters: the letters a to z are
    mapped to A to Z, every other character is kept. *)
Definition upperASCII (a : Ascii.ascii) : Ascii.ascii :=
  let n := Ascii.nat_of_ascii a in
  if (Nat.leb 97 n && Nat.leb n 122)%bool
  then Ascii.ascii_of_nat (n - 32)
  else a.

Fixpoint ToUpper (s : string) : string :=
  match s with
  | EmptyString => EmptyString
  | String a rest => String (upperASCII a) (ToUpper rest)
  end.

Fixpoint isASCII (s : string) : bool :=
  match s with
  | EmptyString => true
  | String a rest => (Nat.ltb (Ascii.nat_of_ascii a) 128 && isASCII rest)%bool
  end.

Definition getOrder (pe : PathEnd) : IBCOrder :=
  OrderFromString (ToUpper (Order pe)).

(** Two strings that differ at most in the case of their ASCII letters. *)
Fixpoint equalFold (s t : string) : bool :=
  match s, t with
  | EmptyString, EmptyString => true
  | String a s', String b t' =>
      (Ascii.eqb (upperASCII a) (upperASCII b) && equalFold s' t')%bool
  | _, _ => false
  end.

Section Builders.

Context {Header Proof Prefix Coins : Type}.

Abbreviation Msg := (Path.Msg Header Proof Prefix).

(** clientTypes.ConsensusStateResponse and chanTypes.ChannelResponse, as far
    as the builders read them. *)
Record ConsensusStateResponse := mkConsensusStateResponse {
  ConsProof : Proof
}.

Record Channel := mkChannel {
  Ordering : IBCOrder;
  Version : string
}.

Record ChannelResponse := mkChannelResponse {
  ChanChannel : Channel;
  ChanProof : Proof;
  ChanProofHeight : Z
}.

(** The channel, transfer and send-packet messages, one variant per [New...]
    constructor, arguments in the constructor's order. *)
Inductive ChanMsg :=
| NewMsgChannelOpenInit (portID channelID version : string)
    (order : IBCOrder) (connectionHops : list string)
    (counterpartyPortID counterpartyChannelID : string) (signer : Address)
| NewMsgChannelOpenTry (portID channelID version : string)
    (order : IBCOrder) (connectionHops : list string)
    (counterpartyPortID counterpartyChannelID counterpartyVersion : string)
    (proofInit : Proof) (proofHeight : Z) (signer : Address)
| NewMsgChannelOpenAck (portID channelID counterpartyVersion : string)
    (proofTry : Proof) (proofHeight : Z) (signer : Address)
| NewMsgChannelOpenConfirm (portID channelID : string) (proofAck : Proof)
    (proofHeight : Z) (signer : Address)
| NewMsgChannelCloseInit (portID channelID : string) (signer : Address)
| NewMsgChannelCloseConfirm (portID channelID : string) (proofInit : Proof)
    (proofHeight : Z) (signer : Address)
| NewMsgTransfer (sourcePort sourceChannel : string) (destHeight : Z)
    (amount : Coins) (sender : Address) (receiver : string)
| NewMsgSendPacket (packet : Packet) (signer : Address).

Definition chanMsgProofHeight (m : ChanMsg) : option Z :=
  match m with
  | NewMsgChannelOpenTry _ _ _ _ _ _ _ _ _ h _ => Some h
  | NewMsgChannelOpenAck _ _ _ _ h _ => Some h
  | NewMsgChannelOpenConfirm _ _ _ h _ => Some h
  | NewMsgChannelCloseConfirm _ _ _ h _ => Some h
  | _ => None
  end.

(** The packet of a message that carries one. *)
Definition msgPacket (m : Msg) : option Packet :=
  match m with
  | NewMsgPacket p _ _ _ => Some p
  | NewMsgTimeout p _ _ _ _ => Some p
  | NewMsgAcknowledgement p _ _ _ _ => Some p
  | _ => None
  end.

Variable defaultChainPrefix : Prefix.
Variable defaultIBCVersions : list string.
Variable defaultIBCVersion : string.
Variable defaultTransferVersion : string.

(** ConnTry creates a MsgConnectionOpenTry. *)
Definition ConnTry (pe dst : PathEnd)
    (dstConnState : Path.ConnectionResponse Proof)
    (dstConsState : ConsensusStateResponse) (dstCsHeight : Z)
    (signer : Address) : Msg :=
  NewMsgConnectionOpenTry (ConnectionID pe) (ClientID pe) (ConnectionID dst)
    (ClientID dst) defaultChainPrefix defaultIBCVersions
    (ConnProof dstConnState) (ConsProof dstConsState)
    (add64 (ConnProofHeight dstConnState) 1) (wrap64 dstCsHeight) signer.

(** ConnAck creates a MsgConnectionOpenAck. *)
Definition ConnAck (pe : PathEnd)
    (dstConnState : Path.ConnectionResponse Proof)
    (dstConsState : ConsensusStateResponse) (dstCsHeight : Z)
    (signer : Address) : Msg :=
  NewMsgConnectionOpenAck (ConnectionID pe) (ConnProof dstConnState)
    (ConsProof dstConsState) (add64 (ConnProofHeight dstConnState) 1)
    (wrap64 dstCsHeight) defaultIBCVersion signer.

(** ChanInit creates a MsgChannelOpenInit. *)
Definition ChanInit (pe dst : PathEnd) (signer : Address) : ChanMsg :=
  NewMsgChannelOpenInit (PortID pe) (ChannelID pe) defaultTransferVersion
    (getOrder pe) [ConnectionID pe] (PortID dst) (ChannelID dst) signer.

(** ChanTry creates a MsgChannelOpenTry. *)
Definition ChanTry (pe dst : PathEnd) (dstChanState : ChannelResponse)
    (signer : Address) : ChanMsg :=
  NewMsgChannelOpenTry (PortID pe) (ChannelID pe) defaultTransferVersion
    (Ordering (ChanChannel dstChanState)) [ConnectionID pe] (PortID dst)
    (ChannelID dst) (Version (ChanChannel dstChanState))
    (ChanProof dstChanState) (add64 (ChanProofHeight dstChanState) 1) signer.

(** ChanAck creates a MsgChannelOpenAck. *)
Definition ChanAck (pe : PathEnd) (dstChanState : ChannelResponse)
    (signer : Address) : ChanMsg :=
  NewMsgChannelOpenAck (PortID pe) (ChannelID pe)
    (Version (ChanChannel dstChanState)) (ChanProof dstChanState)
    (add64 (ChanProofHeight dstChanState) 1) signer.

(** ChanConfirm creates a MsgChannelOpenConfirm. *)
Definition ChanConfirm (pe : PathEnd) (dstChanState : ChannelResponse)
    (signer : Address) : ChanMsg :=
  NewMsgChannelOpenConfirm (PortID pe) (ChannelID pe)
    (ChanProof dstChanState) (add64 (ChanProofHeight dstChanState) 1) signer.

(** ChanCloseInit creates a MsgChannelCloseInit. *)
Definition ChanCloseInit (pe : PathEnd) (signer : Address) : ChanMsg :=
  NewMsgChannelCloseInit (PortID pe) (ChannelID pe) signer.

(** ChanCloseConfirm creates a MsgChannelCloseConfirm. *)
Definition ChanCloseConfirm (pe : PathEnd) (dstChanState : ChannelResponse)
    (signer : Address) : ChanMsg :=
  NewMsgChannelCloseConfirm (PortID pe) (ChannelID pe)
    (ChanProof dstChanState) (add64 (ChanProofHeight dstChanState) 1) signer.

(** MsgTransfer creates a new transfer message. *)
Definition MsgTransfer (pe dst : PathEnd) (dstHeight : Z) (amount : Coins)
    (dstAddr : string) (signer : Address) : ChanMsg :=
  NewMsgTransfer (PortID pe) (ChannelID pe) dstHeight amount signer dstAddr.

(** MsgSendPacket creates a new arbitrary packet message. *)
Definition MsgSendPacket (pe dst : PathEnd) (packetData : bytes)
    (relativeTimeout timeoutStamp : Z) (signer : Address) : ChanMsg :=
  let fakeSequence := 1 in
  let packet :=
    NewChanPacket packetData fakeSequence (PortID pe) (ChannelID pe)
      (PortID dst) (ChannelID dst) relativeTimeout timeoutStamp in
  NewMsgSendPacket packet signer.

(** The answer to a packet commitment query. *)
Record CommitmentResponse := mkCommitmentResponse {
  CommitProof : Proof;
  CommitProofHeight : Z
}.

(** PacketMsg returns a new MsgPacket for forwarding packets from one chain
    to another; [seq] is an int64, converted to uint64. *)
Definition PacketMsg {Provider : Type}
    (MustGetAddress : Relayer.Chain Provider -> Address)
    (c dst : Relayer.Chain Provider) (xferPacket : bytes)
    (timeout timeoutStamp seq : Z) (dstCommitRes : CommitmentResponse)
    : Msg :=
  MsgRecvPacket (Relayer.pathEnd c) (Relayer.pathEnd dst) (wrap64 seq)
    timeout timeoutStamp xferPacket (CommitProof dstCommitRes)
    (CommitProofHeight dstCommitRes) (MustGetAddress c).

End Builders.

Arguments ConsensusStateResponse : clear implicits.
Arguments ChannelResponse : clear implicits.
Arguments CommitmentResponse : clear implicits.
Arguments ChanMsg : clear implicits.

End PathMsgs.

(** ** query.go, the remaining queries *)

Module Query.
Import Path Relayer.

Section Fetches.

Context {Provider ChannelResponse LightHeader ChannelInfo Any TMClientState
         OtherClientState : Type}.

(** chantypes.IdentifiedChannel: the identifiers and the rest. *)
Record IdentifiedChannel := mkIdentifiedChannel {
  ChannelId : string;
  PortId : string;
  Info : ChannelInfo
}.

(** The client state behind the exported interface: the tendermint type or
    any other. *)
Inductive ExportedClientState :=
| Tendermint (cs : TMClientState)
| NotTendermint (cs : OtherClientState).

(** What the providers and libraries answer during one call.  The two
    retried queries of QueryChannel are taken whole: what retry.Do returned,
    and on nil the value its last call of the function left behind. *)
Record Providers := mkProviders {
  firstFirst : bool;
  ProviderQueryChannel : Provider -> Z -> string -> string ->
                         option ChannelResponse * option error;
  GetLightSignedHeaderAtHeight : Provider -> Z ->
                                 option LightHeader * option error;
  retryQueryLatestHeight : Provider -> Result Z;
  retryQueryConnectionChannels : Provider -> Z -> string ->
                                 Result (list IdentifiedChannel);
  QueryClientStateResponse : Provider -> Z -> string -> Result Any;
  UnpackClientState : Any -> Result ExportedClientState;
  emptyClientState : TMClientState
}.

(** QueryChannelPair returns a pair of channel responses. *)
Definition QueryChannelPair (env : Providers) (src dst : Chain Provider)
    (srcH dstH : Z) (srcChanID dstChanID srcPortID dstPortID : string)
    : option ChannelResponse * option ChannelResponse * option error :=
  let '(srcChan, err1) :=
    ProviderQueryChannel env (ChainProvider src) srcH srcChanID srcPortID in
  let '(dstChan, err2) :=
    ProviderQueryChannel env (ChainProvider dst) dstH dstChanID dstPortID in
  match errgroupWait (firstFirst env) err1 err2 with
  | Some err => (None, None, Some err)
  | None => (srcChan, dstChan, None)
  end.

Definition GetLightSignedHeadersAtHeights (env : Providers)
    (src dst : Chain Provider) (srch dsth : Z)
    : option LightHeader * option LightHeader * option error :=
  let '(srcUpdateHeader, err1) :=
    GetLightSignedHeaderAtHeight env (ChainProvider src) srch in
  let '(dstUpdateHeader, err2) :=
    GetLightSignedHeaderAtHeight env (ChainProvider dst) dsth in
  match errgroupWait (firstFirst env) err1 err2 with
  | Some err => (None, None, Some err)
  | None => (srcUpdateHeader, dstUpdateHeader, None)
  end.

Definition channelNotFound (src : Chain Provider) (channelID : string)
    : error :=
  "channel{" ++ channelID ++ "} not found for [" ++ chainID src
    ++ "] -> client{" ++ ClientID (pathEnd src) ++ "}@connection{"
    ++ ConnectionID (pathEnd src) ++ "}".

(** QueryChannel: the latest height, all channels of the connection at that
    height, then the first of them with the identifier asked for. *)
Definition QueryChannel (env : Providers) (src : Chain Provider)
    (channelID : string) : option IdentifiedChannel * option error :=
  match retryQueryLatestHeight env (ChainProvider src) with
  | Err err => (None, Some err)
  | Ok srch =>
    match retryQueryConnectionChannels env (ChainProvider src) srch
            (ConnectionID (pathEnd src)) with
    | Err err => (None, Some err)
    | Ok srcChannels =>
      match
        List.find (fun channel => String.eqb (ChannelId channel) channelID)
          srcChannels
      with
      | Some channel => (Some channel, None)
      | None => (None, Some (channelNotFound src channelID))
      end
    end
  end.

(** CastClientStateToTMType casts client state to tendermint type. *)
Definition CastClientStateToTMType (env : Providers) (cs : Any)
    : TMClientState * option error :=
  match UnpackClientState env cs with
  | Err err => (emptyClientState env, Some err)
  | Ok (NotTendermint _) =>
      (emptyClientState env,
       Some "error when casting exported clientstate to tendermint type")
  | Ok (Tendermint clientState) => (clientState, None)
  end.

(** QueryTMClientState retrieves the latest consensus state for a client in
    state at a given height and casts it to the tendermint type. *)
Definition QueryTMClientState (env : Providers) (c : Chain Provider)
    (height : Z) : TMClientState * option error :=
  match
    QueryClientStateResponse env (ChainProvider c) height
      (ClientID (pathEnd c))
  with
  | Err err => (emptyClientState env, Some err)
  | Ok clientState => CastClientStateToTMType env clientState
  end.

End Fetches.

Arguments IdentifiedChannel : clear implicits.
Arguments ExportedClientState : clear implicits.
Arguments Providers : clear implicits.

End Query.

(** ** The account retriever of the cosmos provider *)

Module Account.

(** A call that returns, or dereferences a nil account. *)
Inductive Call (A : Type) : Type :=
| Returns (a : A)
| NilAccount.
Arguments Returns {A} a.
Arguments NilAccount {A}.

Section Retriever.

Context {ClientCtx AccAddress Acct : Type}.

(** GetAccountWithHeight and the two getters of the account interface are
    defined elsewhere; the account is an interface value, [None] for nil. *)
Variable GetAccountWithHeight :
  ClientCtx -> AccAddress -> option Acct * Z * option error.
Variable GetAccountNumber : Acct -> Z.
Variable GetSequence : Acct -> Z.

(** GetAccount queries for an account given an address. *)
Definition GetAccount (clientCtx : ClientCtx) (addr : AccAddress)
    : option Acct * option error :=
  let '(account, _, err) := GetAccountWithHeight clientCtx addr in
  (account, err).

(** EnsureExists returns an error if no account exists for the given address
    else nil. *)
Definition EnsureExists (clientCtx : ClientCtx) (addr : AccAddress)
    : option error :=
  snd (GetAccount clientCtx addr).

(** GetAccountNumberSequence returns sequence and account number for the
    given address. *)
Definition GetAccountNumberSequence (clientCtx : ClientCtx)
    (addr : AccAddress) : Call (Z * Z * option error) :=
  match GetAccount clientCtx addr with
  | (_, Some err) => Returns (0, 0, Some err)
  | (None, None) => NilAccount
  | (Some acc, None) =>
      Returns (GetAccountNumber acc, GetSequence acc, None)
  end.

End Retriever.

End Account.

(** ** cmd/lite.go: the commands that manage the lite clients

    Each command is the function behind its RunE, applied to the arguments
    cobra has checked (one chain identifier, and for the queries an optional
    height).  lcMap is taken to be an initialised map, the chain GetChain
    hands out to be the command's own, and a method called on a nil client
    to panic. *)

Module Lite.

(** relayer.TrustOptions *)
Record TrustOptions := mkTrustOptions {
  Period : string;
  Height : Z;
  Hash : bytes
}.

(** The flags of the start command. *)
Record Flags := mkFlags {
  trustedHash : bytes;
  trustedHeight : Z;
  trustingPeriod : Z;
  url : string
}.

(** How a command ends: RunE returns, or a method is called on a nil
    client. *)
Inductive Call (A : Type) : Type :=
| Returns (a : A)
| NilClient.
Arguments Returns {A} a.
Arguments NilClient {A}.

Section Commands.

Context {Cfg Client Response SignedHeader ValidatorSet : Type}.

(** relayer.Chain, as far as the commands touch it: the trust options and
    the rest of the configuration. *)
Record Chain := mkChain {
  config : Cfg;
  TrustOptionsOf : TrustOptions
}.

Definition setTrustOptions (chain : Chain) (o : TrustOptions) : Chain :=
  mkChain (config chain) o.

Definition setPeriod (chain : Chain) (p : string) : Chain :=
  setTrustOptions chain
    (mkTrustOptions p (Height (TrustOptionsOf chain))
       (Hash (TrustOptionsOf chain))).

(** lcMap: chainID => client.  An entry may hold a nil client. *)
Definition ClientMap := string -> option (option Client).

Definition lookup (m : ClientMap) (k : string) : option (option Client) :=
  m k.
Definition insert (k : string) (v : option Client) (m : ClientMap)
    : ClientMap :=
  fun k' => if String.eqb k' k then Some v else m k'.
Definition delete (k : string) (m : ClientMap) : ClientMap :=
  fun k' => if String.eqb k' k then None else m k'.
Definition running (m : ClientMap) (k : string) : bool :=
  match m k with Some _ => true | None => false end.

Inductive Printed :=
| PrintedHeader (h : SignedHeader)
| PrintedValidators (v : ValidatorSet)
| PrintedText (s : string).

(** Everything the commands call that is defined elsewhere. *)
Record World := mkWorld {
  Exists : string -> bool;
  GetChain : string -> Result Chain;
  DurationString : Z -> string;
  httpGet : string -> Result Response;
  ReadAll : Response -> Result bytes;
  Unmarshal : bytes -> Result TrustOptions;
  liteClientDir : string -> string;
  NewLiteClient : Chain -> string -> option Client * option error;
  Cleanup : Client -> option error;
  TrustedHeader : Client -> Z -> Result SignedHeader;
  FirstTrustedHeight : Client -> Result Z;
  LastTrustedHeight : Client -> Result Z;
  TrustedValidatorSet : Client -> Z -> Result ValidatorSet;
  ParseInt : string -> Result Z
}.

(** What running a command leaves behind. *)
Record Ran := mkRan {
  returned : Call (option error);
  lcMap : ClientMap;
  printed : list Printed
}.

Definition notConfigured (chainID : string) : error :=
  "chain with ID " ++ chainID ++ " is not configured".
Definition alreadyRunning (chainID : string) : error :=
  "lite client for chain " ++ chainID ++ " is already running".
Definition notRunning (chainID : string) : error :=
  "no lite client running on chaing " ++ chainID.

(** The chain handed to NewLiteClient, once the trust options were fetched. *)
Definition chainToStart (w : World) (f : Flags) (chain : Chain)
    (opts : TrustOptions) : Chain :=
  let chain :=
    if trustingPeriod f >? 0
    then setPeriod chain (DurationString w (trustingPeriod f))
    else chain in
  let chain :=
    if (Nat.ltb 0 (List.length (trustedHash f)) && (trustedHeight f >? 0))%bool
    then setTrustOptions chain
           (mkTrustOptions (Period (TrustOptionsOf chain)) (trustedHeight f)
              (trustedHash f))
    else chain in
  let tp := Period (TrustOptionsOf chain) in
  let chain := setTrustOptions chain opts in
  setPeriod chain tp.

(** lite start [chain-id] *)
Definition liteStart (w : World) (f : Flags) (m : ClientMap)
    (chainID : string) : Ran :=
  if negb (Exists w chainID)
  then mkRan (Returns (Some (notConfigured chainID))) m []
  else if running m chainID
  then mkRan (Returns (Some (alreadyRunning chainID))) m []
  else
    match GetChain w chainID with
    | Err err => mkRan (Returns (Some err)) m []
    | Ok chain =>
      match httpGet w (url f) with
      | Err err => mkRan (Returns (Some err)) m []
      | Ok res =>
        match ReadAll w res with
        | Err err => mkRan (Returns (Some err)) m []
        | Ok bz =>
          match Unmarshal w bz with
          | Err err => mkRan (Returns (Some err)) m []
          | Ok opts =>
              let '(client, err) :=
                NewLiteClient w (chainToStart w f chain opts)
                  (liteClientDir w chainID) in
              mkRan (Returns err) (insert chainID client m) []
          end
        end
      end
    end.

(** lite delete [chain-id] *)
Definition liteDelete (w : World) (m : ClientMap) (chainID : string)
    : Ran :=
  let deleted :=
    mkRan (Returns None) (delete chainID m)
      [PrintedText
         ("successfully deleted lite client on chain " ++ chainID)] in
  match lookup m chainID with
  | Some None => mkRan NilClient m []
  | Some (Some lc) =>
      match Cleanup w lc with
      | Some err => mkRan (Returns (Some err)) m []
      | None => deleted
      end
  | None => deleted
  end.

(** A method call on the client registered for the chain. *)
Definition withClient {A : Type} (m : ClientMap) (chainID : string)
    (call : Client -> Result A) (next : A -> Ran) : Ran :=
  match lookup m chainID with
  | Some (Some lc) =>
      match call lc with
      | Err err => mkRan (Returns (Some err)) m []
      | Ok a => next a
      end
  | _ => mkRan NilClient m []
  end.

(** lite header [chain-id] [height] *)
Definition liteGetHeader (w : World) (m : ClientMap) (chainID : string)
    (heightArg : option string) : Ran :=
  let print header := mkRan (Returns None) m [PrintedHeader header] in
  if negb (Exists w chainID)
  then mkRan (Returns (Some (notConfigured chainID))) m []
  else if negb (running m chainID)
  then mkRan (Returns (Some (notRunning chainID))) m []
  else
    match heightArg with
    | None => withClient m chainID (fun lc => TrustedHeader w lc 0) print
    | Some arg =>
        match ParseInt w arg with
        | Err err => mkRan (Returns (Some err)) m []
        | Ok height =>
            if (height =? -1)%Z
            then
              withClient m chainID (FirstTrustedHeight w)
                (fun height =>
                   withClient m chainID
                     (fun lc => TrustedHeader w lc height) print)
            else
              withClient m chainID (fun lc => TrustedHeader w lc height)
                print
        end
    end.

(** lite validators [chain-id] [height] *)
Definition liteGetValidators (w : World) (m : ClientMap) (chainID : string)
    (heightArg : option string) : Ran :=
  let print vals := mkRan (Returns None) m [PrintedValidators vals] in
  if negb (Exists w chainID)
  then mkRan (Returns (Some (notConfigured chainID))) m []
  else if negb (running m chainID)
  then mkRan (Returns (Some (notRunning chainID))) m []
  else
    match heightArg with
    | None =>
        withClient m chainID (LastTrustedHeight w)
          (fun lastTrustedHeight =>
             withClient m chainID
               (fun lc => TrustedValidatorSet w lc lastTrustedHeight) print)
    | Some arg =>
        match ParseInt w arg with
        | Err err => mkRan (Returns (Some err)) m []
        | Ok height =>
            if (height =? -1)%Z
            then
              withClient m chainID (FirstTrustedHeight w)
                (fun height =>
                   withClient m chainID
                     (fun lc => TrustedValidatorSet w lc height) print)
            else
              withClient m chainID
                (fun lc => TrustedValidatorSet w lc height) print
        end
    end.

End Commands.

Arguments Chain : clear implicits.
Arguments World : clear implicits.
Arguments Ran : clear implicits.
Arguments Printed : clear implicits.

End Lite.

(** ** Concrete worlds for the remaining functions *)

Module Examples.
Import Path Relayer Scenario.

(** [base] with the second goroutine's error recorded first. *)
Definition late (base : World) : World :=
  mkEnv false (QueryLatestHeight base) (QueryConnection base)
    (GetIBCUpdateHeader base) (NewSyncHeaders base) (GetTrustedHeaders base)
    (GetHeight base) (GetLatestLightHeights base) (ConnTry base)
    (ConnAck base) (MustGetAddress base) (SendMsgs base)
    (ParseConnectionIDFromEvents base) (ValidateClientPaths base)
    (defaultChainPrefix base).

(** The two chains with a channel each. *)
Definition chan0 : Chain string :=
  mkChain "ibc0"
    (mkPathEnd "ibc0" "ibconeclient" "ibconeconn" "ibconechan" "bank"
       "Ordered") "ibc0" false.
Definition chan1 : Chain string :=
  mkChain "ibc1"
    (mkPathEnd "ibc1" "ibczeroclient" "ibczeroconn" "ibczerochan" "bank"
       "Ordered") "ibc1" false.

Definition address (c : Chain string) : Address := "relayer on " ++ chainID c.

Definition transferChannel : PathMsgs.ChannelResponse string :=
  PathMsgs.mkChannelResponse (PathMsgs.mkChannel PathMsgs.ORDERED "ics20-1")
    "proof" 9.

(** A provider whose connection has the channels [channels]. *)
Definition providers (channels : list (Query.IdentifiedChannel unit))
    : Query.Providers string string string unit string string string :=
  Query.mkProviders true
    (fun _ _ _ _ => (Some "channel", None))
    (fun _ _ => (Some "light header", None))
    (fun _ => Ok 10)
    (fun _ _ _ => Ok channels)
    (fun _ _ _ => Ok "client state")
    (fun _ => Ok (Query.Tendermint "tendermint client state"))
    "".

Definition threeChannels : list (Query.IdentifiedChannel unit) :=
  [ Query.mkIdentifiedChannel "ibconechan" "bank" tt;
    Query.mkIdentifiedChannel "ibczerochan" "bank" tt;
    Query.mkIdentifiedChannel "ibczerochan" "transfer" tt ].

(** A world for the lite commands: every chain is configured, the trust
    options download and decode, and NewLiteClient answers [started]. *)
Definition liteWorld (started : option string * option error)
    : Lite.World unit string string string string :=
  Lite.mkWorld
    (fun _ => true)
    (fun _ => Ok (Lite.mkChain tt (Lite.mkTrustOptions "336h0m0s" 1 [])))
    (fun _ => "168h0m0s")
    (fun _ => Ok "response")
    (fun _ => Ok [])
    (fun _ => Ok (Lite.mkTrustOptions "" 100 []))
    (fun chainID => "lite/" ++ chainID)
    (fun _ _ => started)
    (fun _ => None)
    (fun _ _ => Ok "header")
    (fun _ => Ok 1)
    (fun _ => Ok 100)
    (fun _ _ => Ok "validators")
    (fun _ => Ok 0).

Definition noClients : @Lite.ClientMap string := fun _ => None.


End Examples.

(** * Properties *)

Import Path Relayer.

(** ** Machine arithmetic *)

Lemma add64_small (h : Z) : 0 <= h < maxUint64 -> add64 h 1 = h + 1.
Proof.
  unfold add64, wrap64, maxUint64. intros Hh.
  apply Z.mod_small. lia.
Qed.

Lemma add64_max : add64 maxUint64 1 = 0.
Proof. reflexivity. Qed.


Lemma isEmpty_true (s : string) : isEmpty s = true <-> s = "".
Proof. unfold isEmpty. apply String.eqb_eq. Qed.

(** ** InitializeConnection *)

Section InitializeConnectionFacts.

Context {Header Proof Prefix SyncHeaders Events Provider : Type}.
Implicit Types (env : Env Header Proof Prefix SyncHeaders Events Provider).
Implicit Types (src dst : Chain Provider).

Lemma sameButConnectionID_refl (c : Chain Provider) :
  sameButConnectionID c c.
Proof. repeat split. Qed.

Lemma sameButConnectionID_set (c : Chain Provider) (id : string) :
  sameButConnectionID c (setChainConnectionID c id).
Proof. repeat split. Qed.

(** What the shared tail does, by the answer of SendMsgs. *)
Lemma sendAndSetConnectionID_spec env side src dst bundle :
  let r := sendAndSetConnectionID env side src dst bundle in
  sent r = [mkSubmission side bundle]
  /\ match SendMsgs env (chainOf side src dst) bundle with
     | (res, false, err) =>
         value r = Ret (false, err) /\ srcAfter r = src /\ dstAfter r = dst
     | (res, true, _) =>
         match nth_error (Logs res) 1 with
         | None =>
             value r = Panic (IndexOutOfRange 1 (List.length (Logs res)))
             /\ srcAfter r = src /\ dstAfter r = dst
         | Some log =>
             match ParseConnectionIDFromEvents env (LogEvents log) with
             | Err e =>
                 value r = Ret (false, Some e)
                 /\ srcAfter r = src /\ dstAfter r = dst
             | Ok id =>
                 value r = Ret (true, None)
                 /\ srcAfter r =
                      match side with
                      | Src => setChainConnectionID src id
                      | Dst => src
                      end
                 /\ dstAfter r =
                      match side with
                      | Src => dst
                      | Dst => setChainConnectionID dst id
                      end
             end
         end
     end.
Proof.
  unfold sendAndSetConnectionID.
  destruct (SendMsgs env (chainOf side src dst) bundle)
    as [[res [|]] err]; cbn [negb]; cbv beta iota zeta.
  - destruct (nth_error (Logs res) 1) as [log|].
    + destruct (ParseConnectionIDFromEvents env (LogEvents log));
        [destruct side|]; now repeat split.
    + now repeat split.
  - now repeat split.
Qed.

(** InitializeConnection either returns before any submission, with an
    error and nothing changed, or runs the shared tail on the chain whose
    identifier is empty, with a bundle of a client update and a handshake
    message for that chain. *)
Lemma InitializeConnection_shape env src dst srcUpdateHeader dstUpdateHeader
    sh :
  let r :=
    InitializeConnection env src dst srcUpdateHeader dstUpdateHeader sh in
  (sent r = [] /\ srcAfter r = src /\ dstAfter r = dst
   /\ exists e, value r = Ret (false, Some e))
  \/ exists side bundle,
       r = sendAndSetConnectionID env side src dst bundle
       /\ ConnectionID (pathEnd (chainOf side src dst)) = ""
       /\ updateThenHandshake env (chainOf side src dst)
            (chainOf (otherSide side) src dst) sh
            (match side with
             | Src => dstUpdateHeader
             | Dst => srcUpdateHeader
             end) bundle.
Proof.
  unfold InitializeConnection.
  destruct (isEmpty (ConnectionID (pathEnd src))) eqn:Es;
    destruct (isEmpty (ConnectionID (pathEnd dst))) eqn:Ed; cbn.
  - right. exists Src. eexists. split; [reflexivity|].
    split; [now apply isEmpty_true|].
    eexists. split; [reflexivity|]. left. reflexivity.
  - destruct (ConnTry env (pathEnd src) dst sh (MustGetAddress env src))
      as [openTry|e] eqn:Et.
    + right. exists Src. eexists. split; [reflexivity|].
      split; [now apply isEmpty_true|].
      eexists. split; [reflexivity|]. right; left. exact Et.
    + left. cbn. eauto.
  - destruct (ConnTry env (pathEnd dst) src sh (MustGetAddress env dst))
      as [openTry|e] eqn:Et.
    + right. exists Dst. eexists. split; [reflexivity|].
      split; [now apply isEmpty_true|].
      eexists. split; [reflexivity|]. right; left. exact Et.
    + left. cbn. eauto.
  - left. cbn. eauto.
Qed.

End InitializeConnectionFacts.

Section InitializeConnectionClaims.

Context {Header Proof Prefix SyncHeaders Events Provider : Type}.
Implicit Types (env : Env Header Proof Prefix SyncHeaders Events Provider).
Implicit Types (src dst : Chain Provider).

(** The shape lemma and the tail's specification put together: the run is
    either an early return, or one submission followed by the tail. *)
Lemma InitializeConnection_run env src dst srcUpdateHeader dstUpdateHeader
    sh :
  let r :=
    InitializeConnection env src dst srcUpdateHeader dstUpdateHeader sh in
  (sent r = [] /\ srcAfter r = src /\ dstAfter r = dst
   /\ exists e, value r = Ret (false, Some e))
  \/ exists side bundle res success err,
       sent r = [mkSubmission side bundle]
       /\ ConnectionID (pathEnd (chainOf side src dst)) = ""
       /\ SendMsgs env (chainOf side src dst) bundle = (res, success, err)
       /\ ((success = false /\ value r = Ret (false, err)
            /\ srcAfter r = src /\ dstAfter r = dst)
           \/ (success = true /\ nth_error (Logs res) 1 = None
               /\ value r
                  = Panic (IndexOutOfRange 1 (List.length (Logs res)))
               /\ srcAfter r = src /\ dstAfter r = dst)
           \/ (exists log e,
                 success = true /\ nth_error (Logs res) 1 = Some log
                 /\ ParseConnectionIDFromEvents env (LogEvents log) = Err e
                 /\ value r = Ret (false, Some e)
                 /\ srcAfter r = src /\ dstAfter r = dst)
           \/ (exists log id,
                 success = true /\ nth_error (Logs res) 1 = Some log
                 /\ ParseConnectionIDFromEvents env (LogEvents log) = Ok id
                 /\ value r = Ret (true, None)
                 /\ srcAfter r =
                      match side with
                      | Src => setChainConnectionID src id
                      | Dst => src
                      end
                 /\ dstAfter r =
                      match side with
                      | Src => dst
                      | Dst => setChainConnectionID dst id
                      end)).
Proof.
  intros r; subst r.
  destruct (InitializeConnection_shape env src dst srcUpdateHeader
              dstUpdateHeader sh)
    as [Hearly | (side & bundle & Hr & Hid & _)]; [left; exact Hearly|].
  right. rewrite Hr.
  destruct (sendAndSetConnectionID_spec env side src dst bundle)
    as [Hsent Hcases].
  destruct (SendMsgs env (chainOf side src dst) bundle)
    as [[res success] err] eqn:Hsend.
  exists side, bundle, res, success, err.
  split; [exact Hsent|]. split; [exact Hid|]. split; [exact Hsend|].
  destruct success.
  - destruct (nth_error (Logs res) 1) as [log|] eqn:Hlog.
    + destruct (ParseConnectionIDFromEvents env (LogEvents log))
        as [id|e] eqn:Hparse.
      * right; right; right. exists log, id. tauto.
      * right; right; left. exists log, e. tauto.
    + right; left. tauto.
  - left. tauto.
Qed.

(** C9: InitializeConnection writes nothing but the ConnectionID of one
    PathEnd, a PathEnd whose identifier was empty, and writes it only after
    SendMsgs reported success and a connection identifier was parsed from
    the events; when the submission fails, when parsing fails, and whenever
    the function returns false, both chains are what they were. *)
Theorem C9_InitializeConnection_frame env src dst srcUpdateHeader
    dstUpdateHeader sh :
  let r :=
    InitializeConnection env src dst srcUpdateHeader dstUpdateHeader sh in
  sameButConnectionID src (srcAfter r)
  /\ sameButConnectionID dst (dstAfter r)
  /\ ((srcAfter r = src /\ dstAfter r = dst)
      \/ exists side bundle res err log id,
           sent r = [mkSubmission side bundle]
           /\ SendMsgs env (chainOf side src dst) bundle = (res, true, err)
           /\ nth_error (Logs res) 1 = Some log
           /\ ParseConnectionIDFromEvents env (LogEvents log) = Ok id
           /\ value r = Ret (true, None)
           /\ ConnectionID (pathEnd (chainOf side src dst)) = ""
           /\ srcAfter r =
                match side with
                | Src => setChainConnectionID src id
                | Dst => src
                end
           /\ dstAfter r =
                match side with
                | Src => dst
                | Dst => setChainConnectionID dst id
                end)
  /\ (forall err, value r = Ret (false, err) ->
        srcAfter r = src /\ dstAfter r = dst)
  /\ (forall side bundle res err,
        sent r = [mkSubmission side bundle] ->
        SendMsgs env (chainOf side src dst) bundle = (res, false, err) ->
        value r = Ret (false, err) /\ srcAfter r = src /\ dstAfter r = dst)
  /\ (forall side bundle res err log e,
        sent r = [mkSubmission side bundle] ->
        SendMsgs env (chainOf side src dst) bundle = (res, true, err) ->
        nth_error (Logs res) 1 = Some log ->
        ParseConnectionIDFromEvents env (LogEvents log) = Err e ->
        value r = Ret (false, Some e)
        /\ srcAfter r = src /\ dstAfter r = dst).
Proof.
  intros r.
  destruct (InitializeConnection_run env src dst srcUpdateHeader
              dstUpdateHeader sh)
    as [(Hsent & Hs & Hd & e & Hv)
       | (side & bundle & res & success & err & Hsent & Hid & Hsend & Hrun)];
    fold r in Hsent, Hs, Hd, Hv || fold r in Hsent, Hrun.
  - rewrite Hs, Hd.
    split; [apply sameButConnectionID_refl|].
    split; [apply sameButConnectionID_refl|].
    split; [left; split; reflexivity|].
    split; [intros; split; reflexivity|].
    split.
    + intros side bundle res err Hsub. rewrite Hsent in Hsub. discriminate.
    + intros side bundle res err log e' Hsub. rewrite Hsent in Hsub.
      discriminate.
  - assert (Hsame :
      forall side' bundle' res' success' err',
        sent r = [mkSubmission side' bundle'] ->
        SendMsgs env (chainOf side' src dst) bundle'
        = (res', success', err') ->
        side' = side /\ bundle' = bundle /\ res' = res
        /\ success' = success /\ err' = err).
    { intros side' bundle' res' success' err' Hsub Hsend'.
      rewrite Hsent in Hsub. injection Hsub as <- <-.
      rewrite Hsend in Hsend'. injection Hsend' as <- <- <-.
      repeat split. }
    destruct Hrun
      as [(-> & Hv & Hs & Hd)
         | [(-> & Hlog & Hv & Hs & Hd)
           | [(log & e & -> & Hlog & Hparse & Hv & Hs & Hd)
             | (log & id & -> & Hlog & Hparse & Hv & Hs & Hd)]]].
    + rewrite Hs, Hd.
      split; [apply sameButConnectionID_refl|].
      split; [apply sameButConnectionID_refl|].
      split; [left; split; reflexivity|].
      split; [intros; split; reflexivity|].
      split.
      * intros side' bundle' res' err' Hsub Hsend'.
        destruct (Hsame _ _ _ _ _ Hsub Hsend') as (_ & _ & _ & _ & <-).
        now rewrite Hv.
      * intros side' bundle' res' err' log e Hsub Hsend'.
        destruct (Hsame _ _ _ _ _ Hsub Hsend') as (_ & _ & _ & Hx & _).
        discriminate.
    + rewrite Hs, Hd.
      split; [apply sameButConnectionID_refl|].
      split; [apply sameButConnectionID_refl|].
      split; [left; split; reflexivity|].
      split; [intros; split; reflexivity|].
      split.
      * intros side' bundle' res' err' Hsub Hsend'.
        destruct (Hsame _ _ _ _ _ Hsub Hsend') as (_ & _ & _ & Hx & _).
        discriminate.
      * intros side' bundle' res' err' log e Hsub Hsend' Hlog'.
        destruct (Hsame _ _ _ _ _ Hsub Hsend') as (_ & _ & -> & _ & _).
        rewrite Hlog in Hlog'. discriminate.
    + rewrite Hs, Hd.
      split; [apply sameButConnectionID_refl|].
      split; [apply sameButConnectionID_refl|].
      split; [left; split; reflexivity|].
      split; [intros; split; reflexivity|].
      split.
      * intros side' bundle' res' err' Hsub Hsend'.
        destruct (Hsame _ _ _ _ _ Hsub Hsend') as (_ & _ & _ & Hx & _).
        discriminate.
      * intros side' bundle' res' err' log' e' Hsub Hsend' Hlog' Hparse'.
        destruct (Hsame _ _ _ _ _ Hsub Hsend') as (_ & _ & -> & _ & _).
        rewrite Hlog in Hlog'. injection Hlog' as <-.
        rewrite Hparse in Hparse'. injection Hparse' as <-.
        now rewrite Hv.
    + rewrite Hs, Hd.
      split; [destruct side; first [apply sameButConnectionID_set
                                   | apply sameButConnectionID_refl]|].
      split; [destruct side; first [apply sameButConnectionID_set
                                   | apply sameButConnectionID_refl]|].
      split.
      { right. exists side, bundle, res, err, log, id. tauto. }
      split.
      { intros err' Hv'. rewrite Hv in Hv'. discriminate. }
      split.
      * intros side' bundle' res' err' Hsub Hsend'.
        destruct (Hsame _ _ _ _ _ Hsub Hsend') as (_ & _ & _ & Hx & _).
        discriminate.
      * intros side' bundle' res' err' log' e' Hsub Hsend' Hlog' Hparse'.
        destruct (Hsame _ _ _ _ _ Hsub Hsend') as (_ & _ & -> & _ & _).
        rewrite Hlog in Hlog'. injection Hlog' as <-.
        rewrite Hparse in Hparse'. discriminate.
Qed.

End InitializeConnectionClaims.

(** ** ExecuteConnectionStep *)

Section ExecuteConnectionStepFacts.

Context {Header Proof Prefix SyncHeaders Events Provider : Type}.
Implicit Types (env : Env Header Proof Prefix SyncHeaders Events Provider).
Implicit Types (src dst : Chain Provider).

(** The switch sets [last] on the two terminal pairs and nowhere else; its
    bundle is nil exactly off the table, and otherwise a client update
    followed by a handshake message, for src or for dst. *)
Lemma connectionSwitch_Ok env sh src dst srcUpdateHeader dstUpdateHeader
    srcConn dstConn bundle last :
  connectionSwitch env sh src dst srcUpdateHeader dstUpdateHeader srcConn
    dstConn = Ok (bundle, last) ->
  last = terminalPair (ConnState srcConn) (ConnState dstConn)
  /\ ((tableRow (ConnState srcConn) (ConnState dstConn) = false
       /\ bundle = [])
      \/ (tableRow (ConnState srcConn) (ConnState dstConn) = true
          /\ (updateThenHandshake env src dst sh dstUpdateHeader bundle
              \/ updateThenHandshake env dst src sh srcUpdateHeader
                   bundle))).
Proof.
  unfold connectionSwitch, updateThenHandshake, handshakeFor.
  destruct (ConnState srcConn), (ConnState dstConn); cbn;
    repeat match goal with
      | |- context [match ?x with Ok _ => _ | Err _ => _ end] =>
          destruct x eqn:?
      end;
    intros Heq; inversion Heq; subst; clear Heq;
    (split; [reflexivity|]);
    first [ left; split; reflexivity
          | right; split; [reflexivity|];
            first [ left; eexists; split; [reflexivity|]; eauto 6
                  | right; eexists; split; [reflexivity|]; eauto 6 ] ].
Qed.

(** When the switch fails, it is ConnTry or ConnAck that failed, on a row of
    the table that is not terminal. *)
Lemma connectionSwitch_Err env sh src dst srcUpdateHeader dstUpdateHeader
    srcConn dstConn e :
  connectionSwitch env sh src dst srcUpdateHeader dstUpdateHeader srcConn
    dstConn = Err e ->
  terminalPair (ConnState srcConn) (ConnState dstConn) = false.
Proof.
  unfold connectionSwitch.
  destruct (ConnState srcConn), (ConnState dstConn); cbn;
    repeat match goal with
      | |- context [match ?x with Ok _ => _ | Err _ => _ end] =>
          destruct x eqn:?
      end;
    intros Heq; try discriminate; reflexivity.
Qed.

(** The four ways a step can run. *)
Lemma ExecuteConnectionStep_run env src dst :
  let r := ExecuteConnectionStep env src dst in
  (* the header sync or the pair of connection queries fails *)
  ((exists e, value r = Ret (false, false, Some e))
   /\ sent r = [] /\ srcAfter r = src /\ dstAfter r = dst)
  (* an identifier is missing: InitializeConnection *)
  \/ (exists sh srcHeader dstHeader,
        NewSyncHeaders env src dst = Ok sh
        /\ GetTrustedHeaders env sh src dst = Ok (srcHeader, dstHeader)
        /\ isEmpty (ConnectionID (pathEnd src))
           || isEmpty (ConnectionID (pathEnd dst)) = true
        /\ let i := InitializeConnection env src dst srcHeader dstHeader sh in
           sent r = sent i /\ srcAfter r = srcAfter i
           /\ dstAfter r = dstAfter i
           /\ value r =
                match value i with
                | Panic k => Panic k
                | Ret (_, Some e) => Ret (false, false, Some e)
                | Ret (success, None) => Ret (success, false, None)
                end)
  (* the switch is reached and the message builder fails *)
  \/ (exists sh srcHeader dstHeader srcConn dstConn e,
        observes env src dst sh srcHeader dstHeader srcConn dstConn
        /\ connectionSwitch env sh src dst srcHeader dstHeader srcConn
             dstConn = Err e
        /\ value r = Ret (false, false, Some e)
        /\ sent r = [] /\ srcAfter r = src /\ dstAfter r = dst)
  (* the switch is reached and its bundle is submitted, on dst *)
  \/ (exists sh srcHeader dstHeader srcConn dstConn bundle last res success
        err,
        observes env src dst sh srcHeader dstHeader srcConn dstConn
        /\ connectionSwitch env sh src dst srcHeader dstHeader srcConn
             dstConn = Ok (bundle, last)
        /\ SendMsgs env dst bundle = (res, success, err)
        /\ value r =
             (if success then Ret (true, last, None)
              else Ret (false, false, err))
        /\ sent r = [mkSubmission Dst bundle]
        /\ srcAfter r = src /\ dstAfter r = dst).
Proof.
  unfold ExecuteConnectionStep, observes.
  destruct (NewSyncHeaders env src dst) as [sh|e] eqn:Hsync.
  2:{ left. cbn. split; [eauto|]. repeat split. }
  destruct (GetTrustedHeaders env sh src dst) as [[srcHeader dstHeader]|e]
    eqn:Htrusted.
  2:{ left. cbn. split; [eauto|]. repeat split. }
  destruct (isEmpty (ConnectionID (pathEnd src))
            || isEmpty (ConnectionID (pathEnd dst))) eqn:Hempty.
  - right; left. exists sh, srcHeader, dstHeader.
    split; [reflexivity|]. split; [exact Htrusted|]. split; [reflexivity|].
    cbv zeta.
    destruct (value (InitializeConnection env src dst srcHeader dstHeader sh))
      as [[success [e|]]|k]; repeat split.
  - apply orb_false_iff in Hempty. destruct Hempty as [Hs Hd].
    destruct (QueryConnectionPair env src dst
                (sub_int64 (toInt64 (GetHeight env sh (chainID src))) 1)
                (sub_int64 (toInt64 (GetHeight env sh (chainID dst))) 1))
      as [[srcConn dstConn] [e|]] eqn:Hquery.
    + left. cbn. split; [eauto|]. repeat split.
    + destruct (connectionSwitch env sh src dst srcHeader dstHeader srcConn
                  dstConn) as [[bundle last]|e] eqn:Hswitch.
      * right; right; right.
        destruct (SendMsgs env dst bundle) as [[res success] err] eqn:Hsend.
        exists sh, srcHeader, dstHeader, srcConn, dstConn, bundle, last, res,
          success, err.
        rewrite Htrusted, Hs, Hd.
        destruct success; cbn; repeat split; assumption.
      * right; right; left.
        exists sh, srcHeader, dstHeader, srcConn, dstConn, e.
        rewrite Htrusted, Hs, Hd. cbn. repeat split; assumption.
Qed.

(** A step that observes a pair of connection ends runs the switch on it
    and submits the switch's bundle on dst. *)
Lemma ExecuteConnectionStep_observed env src dst sh srcHeader dstHeader
    srcConn dstConn :
  observes env src dst sh srcHeader dstHeader srcConn dstConn ->
  ExecuteConnectionStep env src dst =
    match connectionSwitch env sh src dst srcHeader dstHeader srcConn
            dstConn with
    | Err e => mkExec (Ret (false, false, Some e)) src dst []
    | Ok (bundle, last) =>
        mkExec
          (if snd (fst (SendMsgs env dst bundle))
           then Ret (true, last, None)
           else Ret (false, false, snd (SendMsgs env dst bundle)))
          src dst [mkSubmission Dst bundle]
    end.
Proof.
  intros (Hsync & Htrusted & Hs & Hd & Hquery).
  unfold ExecuteConnectionStep.
  rewrite Hsync, Htrusted, Hs, Hd, Hquery. cbn.
  destruct (connectionSwitch env sh src dst srcHeader dstHeader srcConn
              dstConn) as [[bundle last]|e]; [|reflexivity].
  destruct (SendMsgs env dst bundle) as [[res [|]] err]; reflexivity.
Qed.

End ExecuteConnectionStepFacts.

Section HandshakeClaims.

Context {Header Proof Prefix SyncHeaders Events Provider : Type}.
Implicit Types (env : Env Header Proof Prefix SyncHeaders Events Provider).
Implicit Types (src dst : Chain Provider).

(** C10: after a successful submission InitializeConnection reads the
    events of [res.Logs[1]]: with at least two logs the second one is parsed
    and decides the result; with fewer than two the index is out of range
    and the function panics. *)
Theorem C10_second_log_index env src dst srcUpdateHeader dstUpdateHeader sh
    side bundle res err :
  let r :=
    InitializeConnection env src dst srcUpdateHeader dstUpdateHeader sh in
  sent r = [mkSubmission side bundle] ->
  SendMsgs env (chainOf side src dst) bundle = (res, true, err) ->
  ((2 <= List.length (Logs res))%nat ->
     exists log,
       nth_error (Logs res) 1 = Some log
       /\ value r =
            match ParseConnectionIDFromEvents env (LogEvents log) with
            | Ok _ => Ret (true, None)
            | Err e => Ret (false, Some e)
            end)
  /\ ((List.length (Logs res) < 2)%nat ->
        value r = Panic (IndexOutOfRange 1 (List.length (Logs res)))).
Proof.
  intros r Hsub Hsend.
  destruct (InitializeConnection_run env src dst srcUpdateHeader
              dstUpdateHeader sh)
    as [(Hsent & _) | (side' & bundle' & res' & success & err' & Hsent & _
                       & Hsend' & Hrun)];
    fold r in Hsent; rewrite Hsent in Hsub; [discriminate|].
  fold r in Hrun.
  injection Hsub as -> ->. rewrite Hsend in Hsend'.
  injection Hsend' as <- <- <-.
  split.
  - intros Hlen.
    destruct (nth_error (Logs res) 1) as [log|] eqn:Hlog.
    2:{ apply nth_error_None in Hlog. lia. }
    exists log. split; [reflexivity|].
    destruct Hrun
      as [(Hx & _)
         | [(_ & Hnone & _)
           | [(log' & e & _ & Hlog' & Hparse & Hv & _)
             | (log' & id & _ & Hlog' & Hparse & Hv & _)]]];
      try discriminate.
    + injection Hlog' as <-. now rewrite Hparse.
    + injection Hlog' as <-. now rewrite Hparse.
  - intros Hlen.
    assert (Hnone : nth_error (Logs res) 1 = None)
      by (apply nth_error_None; lia).
    destruct Hrun
      as [(Hx & _)
         | [(_ & _ & Hv & _)
           | [(log' & e & _ & Hlog' & _)
             | (log' & id & _ & Hlog' & _)]]];
      try discriminate; try congruence.
Qed.

(** C7: every non-empty bundle a step submits, and every bundle
    InitializeConnection submits, has two messages: first the UpdateClient of
    the chain the handshake message is built for, carrying the counterparty's
    update header of this step (the one GetTrustedHeaders returned, resp. the
    one passed in), then the handshake message. *)
Theorem C7_update_client_first env src dst :
  (forall sub,
     In sub (sent (ExecuteConnectionStep env src dst)) ->
     msgs sub <> [] ->
     exists sh srcHeader dstHeader,
       NewSyncHeaders env src dst = Ok sh
       /\ GetTrustedHeaders env sh src dst = Ok (srcHeader, dstHeader)
       /\ (updateThenHandshake env src dst sh dstHeader (msgs sub)
           \/ updateThenHandshake env dst src sh srcHeader (msgs sub)))
  /\ (forall srcHeader dstHeader sh sub,
        In sub
          (sent (InitializeConnection env src dst srcHeader dstHeader sh)) ->
        updateThenHandshake env src dst sh dstHeader (msgs sub)
        \/ updateThenHandshake env dst src sh srcHeader (msgs sub)).
Proof.
  assert (Hinit :
    forall srcHeader dstHeader sh sub,
      In sub
        (sent (InitializeConnection env src dst srcHeader dstHeader sh)) ->
      updateThenHandshake env src dst sh dstHeader (msgs sub)
      \/ updateThenHandshake env dst src sh srcHeader (msgs sub)).
  { intros srcHeader dstHeader sh sub Hin.
    destruct (InitializeConnection_shape env src dst srcHeader dstHeader sh)
      as [(Hsent & _) | (side & bundle & Hr & _ & Hbundle)].
    - rewrite Hsent in Hin. destruct Hin.
    - rewrite Hr in Hin.
      destruct (sendAndSetConnectionID_spec env side src dst bundle)
        as [Hsent _].
      rewrite Hsent in Hin. destruct Hin as [<-|[]]. cbn [msgs].
      destruct side; [left|right]; exact Hbundle. }
  split; [|exact Hinit].
  intros sub Hin Hne.
  destruct (ExecuteConnectionStep_run env src dst)
    as [(_ & Hsent & _)
       | [(sh & srcHeader & dstHeader & Hsync & Htrusted & _ & Hi)
         | [(sh & srcHeader & dstHeader & srcConn & dstConn & e & _ & _ & _
             & Hsent & _)
           | (sh & srcHeader & dstHeader & srcConn & dstConn & bundle & last
              & res & success & err & Hobs & Hswitch & _ & _ & Hsent & _)]]].
  - rewrite Hsent in Hin. destruct Hin.
  - cbv zeta in Hi. destruct Hi as (Hsent & _). rewrite Hsent in Hin.
    exists sh, srcHeader, dstHeader. auto.
  - rewrite Hsent in Hin. destruct Hin.
  - rewrite Hsent in Hin. destruct Hin as [<-|[]]. cbn [msgs] in *.
    destruct Hobs as (Hsync & Htrusted & _).
    exists sh, srcHeader, dstHeader.
    split; [exact Hsync|]. split; [exact Htrusted|].
    apply connectionSwitch_Ok in Hswitch.
    destruct Hswitch as (_ & [(_ & ->) | (_ & Hshape)]);
      [contradiction|exact Hshape].
Qed.

(** On a terminal pair the switch cannot fail and sets [last]. *)
Lemma connectionSwitch_terminal env sh src dst srcUpdateHeader
    dstUpdateHeader srcConn dstConn :
  terminalPair (ConnState srcConn) (ConnState dstConn) = true ->
  exists bundle,
    connectionSwitch env sh src dst srcUpdateHeader dstUpdateHeader srcConn
      dstConn = Ok (bundle, true).
Proof.
  intros Hterm.
  destruct (connectionSwitch env sh src dst srcUpdateHeader dstUpdateHeader
              srcConn dstConn) as [[bundle last]|e] eqn:Hswitch.
  - apply connectionSwitch_Ok in Hswitch. destruct Hswitch as (-> & _).
    rewrite Hterm. eauto.
  - apply connectionSwitch_Err in Hswitch. congruence.
Qed.

(** C5 (as the code has it): the step returns [last = true] exactly when it
    observed (TRYOPEN, OPEN) or (OPEN, TRYOPEN) and the submission of the
    confirm bundle succeeded; it then returns (true, true, nil).  In
    particular the initialization path never returns [last = true]. *)
Theorem C5_terminal_iff_pair_and_success env src dst :
  let r := ExecuteConnectionStep env src dst in
  ((exists success err, value r = Ret (success, true, err))
   <-> exists sh srcHeader dstHeader srcConn dstConn bundle,
         observes env src dst sh srcHeader dstHeader srcConn dstConn
         /\ terminalPair (ConnState srcConn) (ConnState dstConn) = true
         /\ sent r = [mkSubmission Dst bundle]
         /\ snd (fst (SendMsgs env dst bundle)) = true)
  /\ (forall success err,
        value r = Ret (success, true, err) -> success = true /\ err = None)
  /\ (isEmpty (ConnectionID (pathEnd src))
      || isEmpty (ConnectionID (pathEnd dst)) = true ->
      forall success last err,
        value r = Ret (success, last, err) -> last = false).
Proof.
  intros r.
  assert (Hfwd :
    forall success err,
      value r = Ret (success, true, err) ->
      success = true /\ err = None
      /\ exists sh srcHeader dstHeader srcConn dstConn bundle,
           observes env src dst sh srcHeader dstHeader srcConn dstConn
           /\ terminalPair (ConnState srcConn) (ConnState dstConn) = true
           /\ sent r = [mkSubmission Dst bundle]
           /\ snd (fst (SendMsgs env dst bundle)) = true).
  { intros success err Hv.
    destruct (ExecuteConnectionStep_run env src dst)
      as [((e & Hv') & _)
         | [(sh & srcHeader & dstHeader & _ & _ & _ & Hi)
           | [(sh & srcHeader & dstHeader & srcConn & dstConn & e & _ & _
               & Hv' & _)
             | (sh & srcHeader & dstHeader & srcConn & dstConn & bundle
                & last & res & ok & err' & Hobs & Hswitch & Hsend & Hv'
                & Hsent & _)]]];
      fold r in Hv' || fold r in Hi.
    - rewrite Hv' in Hv. discriminate.
    - cbv zeta in Hi. destruct Hi as (_ & _ & _ & Hv').
      rewrite Hv' in Hv.
      destruct (value (InitializeConnection env src dst srcHeader dstHeader
                         sh)) as [[ok [e|]]|k]; discriminate.
    - rewrite Hv' in Hv. discriminate.
    - fold r in Hsent. rewrite Hv' in Hv.
      destruct ok; [|discriminate].
      injection Hv as <- -> <-.
      split; [reflexivity|]. split; [reflexivity|].
      apply connectionSwitch_Ok in Hswitch. destruct Hswitch as (Hlast & _).
      exists sh, srcHeader, dstHeader, srcConn, dstConn, bundle.
      rewrite Hsend. cbn. auto. }
  split; [split|split].
  - intros (success & err & Hv). apply Hfwd in Hv. tauto.
  - intros (sh & srcHeader & dstHeader & srcConn & dstConn & bundle & Hobs
            & Hterm & Hsent & Hok).
    destruct (connectionSwitch_terminal env sh src dst srcHeader dstHeader
                srcConn dstConn Hterm) as [bundle' Hswitch].
    subst r.
    rewrite (ExecuteConnectionStep_observed env src dst sh srcHeader
               dstHeader srcConn dstConn Hobs) in *.
    rewrite Hswitch in *. cbn in Hsent. injection Hsent as ->.
    rewrite Hok. cbn. eauto.
  - intros success err Hv. apply Hfwd in Hv. tauto.
  - intros Hempty success last err Hv.
    destruct last; [|reflexivity].
    apply Hfwd in Hv.
    destruct Hv as (_ & _ & sh & srcHeader & dstHeader & srcConn & dstConn
                    & bundle & (_ & _ & Hs & Hd & _) & _).
    rewrite Hs, Hd in Hempty. discriminate.
Qed.

(** C1 (what the code does): when both ends are observed in INIT, the step
    builds the bundle for src (src's client updated with dst's header,
    then src's ConnOpenTry) and hands it to SendMsgs of dst; that is its
    only submission. *)
Theorem C1_crossing_hellos_bundle_goes_to_dst env src dst sh srcHeader
    dstHeader srcConn dstConn openTry :
  observes env src dst sh srcHeader dstHeader srcConn dstConn ->
  ConnState srcConn = INIT ->
  ConnState dstConn = INIT ->
  ConnTry env (pathEnd src) dst sh (MustGetAddress env src) = Ok openTry ->
  sent (ExecuteConnectionStep env src dst) =
    [ mkSubmission Dst
        [ UpdateClient (pathEnd src) dstHeader (MustGetAddress env src);
          openTry ] ].
Proof.
  intros Hobs Hs Hd Htry.
  rewrite (ExecuteConnectionStep_observed env src dst sh srcHeader dstHeader
             srcConn dstConn Hobs).
  unfold connectionSwitch. rewrite Hs, Hd, Htry. reflexivity.
Qed.

(** C2 (what the code does): on a pair of states no case of the switch is
    written for, the step hands the nil bundle to SendMsgs of dst and returns
    what that call reports; InitializeConnection with both identifiers set
    returns the error "connection ends already created" and submits
    nothing. *)
Theorem C2_unmatched_pair_submits_nil_bundle env src dst :
  (forall sh srcHeader dstHeader srcConn dstConn,
     observes env src dst sh srcHeader dstHeader srcConn dstConn ->
     tableRow (ConnState srcConn) (ConnState dstConn) = false ->
     ExecuteConnectionStep env src dst =
       mkExec
         (if snd (fst (SendMsgs env dst []))
          then Ret (true, false, None)
          else Ret (false, false, snd (SendMsgs env dst [])))
         src dst [mkSubmission Dst []])
  /\ (forall srcHeader dstHeader sh,
        isEmpty (ConnectionID (pathEnd src)) = false ->
        isEmpty (ConnectionID (pathEnd dst)) = false ->
        InitializeConnection env src dst srcHeader dstHeader sh =
          mkExec (Ret (false, Some "connection ends already created")) src
            dst []).
Proof.
  split.
  - intros sh srcHeader dstHeader srcConn dstConn Hobs Hrow.
    rewrite (ExecuteConnectionStep_observed env src dst sh srcHeader
               dstHeader srcConn dstConn Hobs).
    unfold connectionSwitch.
    destruct (ConnState srcConn), (ConnState dstConn);
      try discriminate Hrow; reflexivity.
  - intros srcHeader dstHeader sh Hs Hd.
    unfold InitializeConnection. rewrite Hs, Hd. reflexivity.
Qed.

End HandshakeClaims.

(** ** CreateOpenConnections *)

Section RetryLoop.

Context {Header Proof Prefix SyncHeaders Events Provider : Type}.
Implicit Types (env : Env Header Proof Prefix SyncHeaders Events Provider).
Implicit Types (envs : nat -> Env Header Proof Prefix SyncHeaders Events
                                Provider).
Implicit Types (c src dst : Chain Provider).

(** A step that does not report success leaves both chains as they were. *)
Lemma ExecuteConnectionStep_failure_frame env src dst last err :
  value (ExecuteConnectionStep env src dst) = Ret (false, last, err) ->
  srcAfter (ExecuteConnectionStep env src dst) = src
  /\ dstAfter (ExecuteConnectionStep env src dst) = dst.
Proof.
  intros Hv.
  destruct (ExecuteConnectionStep_run env src dst)
    as [(_ & _ & Hs & Hd)
       | [(sh & srcHeader & dstHeader & _ & _ & _ & Hi)
         | [(sh & srcHeader & dstHeader & srcConn & dstConn & e & _ & _ & _
             & _ & Hs & Hd)
           | (sh & srcHeader & dstHeader & srcConn & dstConn & bundle & l
              & res & ok & err' & _ & _ & _ & _ & _ & Hs & Hd)]]];
    try (split; assumption).
  cbv zeta in Hi. destruct Hi as (_ & Hs & Hd & Hv').
  rewrite Hs, Hd. rewrite Hv' in Hv.
  destruct (InitializeConnection_run env src dst srcHeader dstHeader sh)
    as [(_ & Hs' & Hd' & _)
       | (side & bundle & res & ok & e & _ & _ & _
          & [(_ & _ & Hs' & Hd')
            | [(_ & _ & _ & Hs' & Hd')
              | [(log & e' & _ & _ & _ & _ & Hs' & Hd')
                | (log & id & _ & _ & _ & Hvi & _)]]])];
    try (split; assumption).
  rewrite Hvi in Hv. discriminate.
Qed.

(** A step whose one submission is rejected returns (false, false, err)
    with the error SendMsgs gave, nil or not. *)
Lemma ExecuteConnectionStep_rejected env src dst side bundle res err :
  sent (ExecuteConnectionStep env src dst) = [mkSubmission side bundle] ->
  SendMsgs env (chainOf side src dst) bundle = (res, false, err) ->
  value (ExecuteConnectionStep env src dst) = Ret (false, false, err).
Proof.
  intros Hsub Hsend.
  destruct (ExecuteConnectionStep_run env src dst)
    as [(_ & Hsent & _)
       | [(sh & srcHeader & dstHeader & _ & _ & _ & Hi)
         | [(sh & srcHeader & dstHeader & srcConn & dstConn & e & _ & _ & _
             & Hsent & _)
           | (sh & srcHeader & dstHeader & srcConn & dstConn & bundle' & l
              & res' & ok & err' & _ & _ & Hsend' & Hv & Hsent & _)]]];
    try (rewrite Hsent in Hsub; discriminate).
  - cbv zeta in Hi. destruct Hi as (Hsent & _ & _ & Hv).
    rewrite Hsent in Hsub. rewrite Hv.
    destruct (InitializeConnection_run env src dst srcHeader dstHeader sh)
      as [(Hnil & _)
         | (side' & bundle' & res' & ok & err' & Hsent' & _ & Hsend' & Hrun)];
      [rewrite Hnil in Hsub; discriminate|].
    rewrite Hsent' in Hsub. injection Hsub as <- <-.
    rewrite Hsend in Hsend'. injection Hsend' as <- <- <-.
    destruct Hrun
      as [(_ & -> & _)
         | [(Hx & _) | [(log & e' & Hx & _) | (log & id & Hx & _)]]];
      try discriminate.
    destruct err; reflexivity.
  - rewrite Hsent in Hsub. injection Hsub as <- <-. cbn in Hsend.
    rewrite Hsend in Hsend'. injection Hsend' as <- <- <-. exact Hv.
Qed.

Lemma loopBody_error env maxRetries failed c dst success last e :
  value (ExecuteConnectionStep env c dst) = Ret (success, last, Some e) ->
  value (loopBody env maxRetries failed c dst)
  = Ret (Return (Some e) failed).
Proof. intros Hv. unfold loopBody. rewrite Hv. reflexivity. Qed.

Lemma loopBody_failure env maxRetries failed c dst last :
  value (ExecuteConnectionStep env c dst) = Ret (false, last, None) ->
  loopBody env maxRetries failed c dst =
    mkExec
      (Ret (if add64 failed 1 >? maxRetries
            then Return (Some (connectionFailed c dst)) (add64 failed 1)
            else Continue (add64 failed 1)))
      c dst (sent (ExecuteConnectionStep env c dst)).
Proof.
  intros Hv.
  destruct (ExecuteConnectionStep_failure_frame env c dst last None Hv)
    as [Hs Hd].
  unfold loopBody. rewrite Hv, Hs, Hd. cbn.
  destruct (add64 failed 1 >? maxRetries); reflexivity.
Qed.





(** C3 (as the code has it): an error returned by the step makes the loop
    return it at once, the failure counter untouched.  A submission that
    SendMsgs rejects with a nil error makes the step return
    (false, false, nil), and the loop counts it: the counter goes up by one
    and the loop goes on unless the counter now exceeds [maxRetries].  A
    rejection that comes with an error is returned at once like any other
    error. *)
Theorem C3_errors_abort_rejections_count env maxRetries failed c dst :
  let r := ExecuteConnectionStep env c dst in
  (forall success last e,
     value r = Ret (success, last, Some e) ->
     value (loopBody env maxRetries failed c dst)
     = Ret (Return (Some e) failed))
  /\ (forall side bundle res,
        sent r = [mkSubmission side bundle] ->
        SendMsgs env (chainOf side c dst) bundle = (res, false, None) ->
        value r = Ret (false, false, None)
        /\ value (loopBody env maxRetries failed c dst)
           = Ret (if add64 failed 1 >? maxRetries
                  then Return (Some (connectionFailed c dst))
                         (add64 failed 1)
                  else Continue (add64 failed 1)))
  /\ (forall side bundle res e,
        sent r = [mkSubmission side bundle] ->
        SendMsgs env (chainOf side c dst) bundle = (res, false, Some e) ->
        value r = Ret (false, false, Some e)
        /\ value (loopBody env maxRetries failed c dst)
           = Ret (Return (Some e) failed)).
Proof.
  intros r. split; [|split].
  - intros success last e Hv. eapply loopBody_error; exact Hv.
  - intros side bundle res Hsub Hsend.
    pose proof (ExecuteConnectionStep_rejected env c dst side bundle res None
                  Hsub Hsend) as Hv.
    split; [exact Hv|].
    rewrite (loopBody_failure env maxRetries failed c dst false Hv).
    reflexivity.
  - intros side bundle res e Hsub Hsend.
    pose proof (ExecuteConnectionStep_rejected env c dst side bundle res
                  (Some e) Hsub Hsend) as Hv.
    split; [exact Hv|]. eapply loopBody_error; exact Hv.
Qed.


End RetryLoop.

(** ** Packet messages *)

Section PacketMessages.

Context {Header Proof Prefix : Type}.

(** C6 (as the code has it): the proof height MsgRecvPacket, MsgTimeout and
    MsgAck put in the message is the [uint64] sum [proofHeight + 1]: one
    more than the height handed in, except at the largest [uint64], where
    it wraps to 0. *)
Theorem C6_proof_height_is_next_uint64 (pe dst : PathEnd)
    (sequence timeoutHeight timeoutStamp : Z) (ack packetData : bytes)
    (proof : Proof) (proofHeight : Z) (signer : Address) :
  0 <= proofHeight < two64 ->
  let next := if (proofHeight =? maxUint64)%Z then 0 else proofHeight + 1 in
  msgProofHeight
    (@MsgRecvPacket Header Proof Prefix pe dst sequence timeoutHeight
       timeoutStamp packetData proof proofHeight signer) = Some next
  /\ msgProofHeight
       (@MsgTimeout Header Proof Prefix pe dst packetData sequence
          timeoutHeight timeoutStamp proof proofHeight signer) = Some next
  /\ msgProofHeight
       (@MsgAck Header Proof Prefix pe dst sequence timeoutHeight
          timeoutStamp ack packetData proof proofHeight signer) = Some next.
Proof.
  intros Hrange next.
  assert (Hnext : add64 proofHeight 1 = next).
  { subst next. destruct (Z.eqb_spec proofHeight maxUint64) as [->|Hne].
    - apply add64_max.
    - apply add64_small. unfold maxUint64 in *. lia. }
  cbn. rewrite Hnext. repeat split.
Qed.

End PacketMessages.

(** ** Paired fetches *)

Section PairedFetches.

Context {Header Proof Prefix SyncHeaders Events Provider : Type}.
Implicit Types (env earlier : Env Header Proof Prefix SyncHeaders Events
                                Provider).
Implicit Types (src dst : Chain Provider).

Lemma errgroupWait_None (b : bool) (e1 e2 : option error) :
  errgroupWait b e1 e2 = None <-> e1 = None /\ e2 = None.
Proof.
  unfold errgroupWait.
  destruct b, e1, e2; split; intros H; try discriminate;
    try (destruct H; discriminate); auto.
Qed.

(** The error Wait returns is one of the two goroutines' errors. *)
Lemma errgroupWait_Some (b : bool) (e1 e2 : option error) (e : error) :
  errgroupWait b e1 e2 = Some e -> e1 = Some e \/ e2 = Some e.
Proof. unfold errgroupWait. destruct b, e1, e2; intros H; auto. Qed.

(** C8: whatever the scheduling, QueryLatestHeights and GetIBCUpdateHeaders
    return a non-nil error as soon as one of their two fetches does, and the
    error is one of the fetches'; GetIBCUpdateHeaders then returns no header
    at all.  Neither keeps anything from one call to the next: whatever an
    earlier call met, a call whose two fetches succeed returns exactly what
    these two fetches returned. *)
Theorem C8_paired_fetch_is_all_or_nothing env earlier src dst
    (srch dsth : Z) (psrc pdst : Provider) (srcClientID dstClientID : string) :
  let h1 := QueryLatestHeight env (ChainProvider src) in
  let h2 := QueryLatestHeight env (ChainProvider dst) in
  let u1 := GetIBCUpdateHeader env psrc srch pdst dstClientID in
  let u2 := GetIBCUpdateHeader env pdst dsth psrc srcClientID in
  (snd h1 <> None \/ snd h2 <> None ->
     exists e,
       snd (QueryLatestHeights env src dst) = Some e
       /\ (snd h1 = Some e \/ snd h2 = Some e))
  /\ (snd u1 <> None \/ snd u2 <> None ->
        exists e,
          GetIBCUpdateHeaders env srch dsth psrc pdst srcClientID dstClientID
          = (None, None, Some e)
          /\ (snd u1 = Some e \/ snd u2 = Some e))
  /\ (snd (GetIBCUpdateHeaders earlier srch dsth psrc pdst srcClientID
             dstClientID) <> None ->
      snd u1 = None -> snd u2 = None ->
      GetIBCUpdateHeaders env srch dsth psrc pdst srcClientID dstClientID
      = (fst u1, fst u2, None))
  /\ (snd (QueryLatestHeights earlier src dst) <> None ->
      snd h1 = None -> snd h2 = None ->
      QueryLatestHeights env src dst = (fst h1, fst h2, None)).
Proof.
  intros h1 h2 u1 u2.
  unfold QueryLatestHeights, GetIBCUpdateHeaders.
  fold h1 h2 u1 u2.
  destruct h1 as [v1 e1], h2 as [v2 e2], u1 as [w1 f1], u2 as [w2 f2].
  cbn [fst snd].
  split; [|split; [|split]].
  - intros Hfail.
    destruct (errgroupWait (srcFirst env) e1 e2) as [e|] eqn:Hwait.
    + exists e. split; [reflexivity|]. now apply errgroupWait_Some in Hwait.
    + apply errgroupWait_None in Hwait. destruct Hwait, Hfail; contradiction.
  - intros Hfail.
    destruct (errgroupWait (srcFirst env) f1 f2) as [e|] eqn:Hwait.
    + exists e. split; [reflexivity|]. now apply errgroupWait_Some in Hwait.
    + apply errgroupWait_None in Hwait. destruct Hwait, Hfail; contradiction.
  - intros _ -> ->. destruct (srcFirst env); reflexivity.
  - intros _ -> ->. destruct (srcFirst env); reflexivity.
Qed.

End PairedFetches.

(** ** The statements at work on the two chains of the README *)

Import Scenario.

Lemma observes_scenario (s d : State)
    (answer : TxResponse string * bool * option error) :
  observes (world s d answer) ibc0 ibc1 sh h0 h1 (conn s) (conn d).
Proof. repeat split. Qed.

Lemma C1_witness :
  sent (ExecuteConnectionStep (world INIT INIT accepted) ibc0 ibc1) =
    [ mkSubmission Dst
        [ UpdateClient (pathEnd ibc0) h1 "relayer on ibc0";
          openTry (pathEnd ibc0) ibc1 "relayer on ibc0" ] ].
Proof.
  apply (C1_crossing_hellos_bundle_goes_to_dst (world INIT INIT accepted)
           ibc0 ibc1 sh h0 h1 (conn INIT) (conn INIT)
           (openTry (pathEnd ibc0) ibc1 "relayer on ibc0")).
  - repeat split.
  - reflexivity.
  - reflexivity.
  - reflexivity.
Defined.

Lemma C2_witness :
  ExecuteConnectionStep (world OPEN OPEN rejected) ibc0 ibc1 =
    mkExec (Ret (false, false, None)) ibc0 ibc1 [mkSubmission Dst []].
Proof.
  apply (proj1 (C2_unmatched_pair_submits_nil_bundle
                  (world OPEN OPEN rejected) ibc0 ibc1)
           sh h0 h1 (conn OPEN) (conn OPEN)).
  - repeat split.
  - reflexivity.
Defined.

Lemma C3_witness :
  value (ExecuteConnectionStep (world INIT INIT rejected) ibc0 ibc1)
  = Ret (false, false, None)
  /\ value (loopBody (world INIT INIT rejected) 5 0 ibc0 ibc1)
     = Ret (Continue 1).
Proof.
  apply (proj1 (proj2 (C3_errors_abort_rejections_count
                         (world INIT INIT rejected) 5 0 ibc0 ibc1))
           Dst
           [ UpdateClient (pathEnd ibc0) h1 "relayer on ibc0";
             openTry (pathEnd ibc0) ibc1 "relayer on ibc0" ]
           (mkTxResponse [])).
  - reflexivity.
  - reflexivity.
Defined.

(** C3, as stated, fails: a submission rejected together with an error is
    not counted and retried; with five retries allowed the function returns
    that error after one attempt, the counter still at zero. *)
Lemma C3_counterexample :
  SendMsgs (world INIT INIT refused) ibc1
    [ UpdateClient (pathEnd ibc0) h1 "relayer on ibc0";
      openTry (pathEnd ibc0) ibc1 "relayer on ibc0" ]
  = (mkTxResponse [], false, Some "submission failed")
  /\ CreateOpenConnections 10 (fun _ => world INIT INIT refused) ibc0 ibc1 5
     = mkRun (Returned (Some "submission failed")) 1 0 ibc0 ibc1
         [ mkSubmission Dst
             [ UpdateClient (pathEnd ibc0) h1 "relayer on ibc0";
               openTry (pathEnd ibc0) ibc1 "relayer on ibc0" ] ].
Proof. split; reflexivity. Qed.



Lemma C5_witness :
  exists success err,
    value (ExecuteConnectionStep (world TRYOPEN OPEN accepted) ibc0 ibc1)
    = Ret (success, true, err).
Proof.
  apply (proj2 (proj1 (C5_terminal_iff_pair_and_success
                         (world TRYOPEN OPEN accepted) ibc0 ibc1))).
  exists sh, h0, h1, (conn TRYOPEN), (conn OPEN).
  eexists. repeat split.
Defined.

(** C5, as stated, fails: the pair (TRYOPEN, OPEN) is observed, the confirm
    bundle is rejected, and the step returns [last = false]. *)
Lemma C5_counterexample :
  observes (world TRYOPEN OPEN rejected) ibc0 ibc1 sh h0 h1 (conn TRYOPEN)
    (conn OPEN)
  /\ value (ExecuteConnectionStep (world TRYOPEN OPEN rejected) ibc0 ibc1)
     = Ret (false, false, None).
Proof. split; [apply observes_scenario | reflexivity]. Qed.

Lemma C6_witness :
  msgProofHeight
    (@MsgRecvPacket string string string (pathEnd ibc0) (pathEnd ibc1) 42 100
       0 [] "proof" 7 "relayer on ibc0") = Some 8
  /\ msgProofHeight
       (@MsgTimeout string string string (pathEnd ibc0) (pathEnd ibc1) [] 42
          100 0 "proof" 7 "relayer on ibc0") = Some 8
  /\ msgProofHeight
       (@MsgAck string string string (pathEnd ibc0) (pathEnd ibc1) 42 100 0
          [] [] "proof" 7 "relayer on ibc0") = Some 8.
Proof.
  apply (@C6_proof_height_is_next_uint64 string string string (pathEnd ibc0)
           (pathEnd ibc1) 42 100 0 [] [] "proof" 7 "relayer on ibc0").
  unfold two64. lia.
Defined.

(** C6, as stated, fails at the largest height: the field is 0, not one
    more than the height handed in. *)
Lemma C6_counterexample :
  msgProofHeight
    (@MsgRecvPacket string string string (pathEnd ibc0) (pathEnd ibc1) 42 100
       0 [] "proof" maxUint64 "relayer on ibc0") = Some 0
  /\ msgProofHeight
       (@MsgTimeout string string string (pathEnd ibc0) (pathEnd ibc1) [] 42
          100 0 "proof" maxUint64 "relayer on ibc0") = Some 0
  /\ msgProofHeight
       (@MsgAck string string string (pathEnd ibc0) (pathEnd ibc1) 42 100 0
          [] [] "proof" maxUint64 "relayer on ibc0") = Some 0
  /\ 0 <> maxUint64 + 1.
Proof. repeat split. discriminate. Qed.

Lemma C7_witness :
  exists sh' srcHeader dstHeader,
    NewSyncHeaders (world TRYOPEN INIT accepted) ibc0 ibc1 = Ok sh'
    /\ GetTrustedHeaders (world TRYOPEN INIT accepted) sh' ibc0 ibc1
       = Ok (srcHeader, dstHeader)
    /\ (updateThenHandshake (world TRYOPEN INIT accepted) ibc0 ibc1 sh'
          dstHeader
          [ UpdateClient (pathEnd ibc1) h0 "relayer on ibc1";
            openAck (pathEnd ibc1) "relayer on ibc1" ]
        \/ updateThenHandshake (world TRYOPEN INIT accepted) ibc1 ibc0 sh'
             srcHeader
             [ UpdateClient (pathEnd ibc1) h0 "relayer on ibc1";
               openAck (pathEnd ibc1) "relayer on ibc1" ]).
Proof.
  apply (proj1 (C7_update_client_first (world TRYOPEN INIT accepted) ibc0
                  ibc1)
           (mkSubmission Dst
              [ UpdateClient (pathEnd ibc1) h0 "relayer on ibc1";
                openAck (pathEnd ibc1) "relayer on ibc1" ])).
  - left. reflexivity.
  - discriminate.
Defined.

Lemma C8_witness :
  (exists e,
     GetIBCUpdateHeaders (unreachable "ibc1" (world INIT INIT accepted)) 10
       10 "ibc0" "ibc1" "ibconeclient" "ibczeroclient"
     = (None, None, Some e)
     /\ (snd (GetIBCUpdateHeader
                (unreachable "ibc1" (world INIT INIT accepted)) "ibc0" 10
                "ibc1" "ibczeroclient") = Some e
         \/ snd (GetIBCUpdateHeader
                   (unreachable "ibc1" (world INIT INIT accepted)) "ibc1"
                   10 "ibc0" "ibconeclient") = Some e))
  /\ GetIBCUpdateHeaders (world INIT INIT accepted) 10 10 "ibc0" "ibc1"
       "ibconeclient" "ibczeroclient"
     = (Some h0, Some h1, None).
Proof.
  split.
  - apply (proj1 (proj2 (C8_paired_fetch_is_all_or_nothing
                           (unreachable "ibc1" (world INIT INIT accepted))
                           (world INIT INIT accepted) ibc0 ibc1 10 10 "ibc0"
                           "ibc1" "ibconeclient" "ibczeroclient"))).
    right. discriminate.
  - apply (proj1 (proj2 (proj2 (C8_paired_fetch_is_all_or_nothing
                                  (world INIT INIT accepted)
                                  (unreachable "ibc1"
                                     (world INIT INIT accepted))
                                  ibc0 ibc1 10 10 "ibc0" "ibc1"
                                  "ibconeclient" "ibczeroclient")))).
    + discriminate.
    + reflexivity.
    + reflexivity.
Defined.

Lemma C9_witness :
  srcAfter (InitializeConnection (world INIT INIT rejected) ibc0 fresh1 h0 h1
              sh) = ibc0
  /\ dstAfter (InitializeConnection (world INIT INIT rejected) ibc0 fresh1 h0
                 h1 sh) = fresh1.
Proof.
  apply (proj1 (proj2 (proj2 (proj2 (C9_InitializeConnection_frame
                                       (world INIT INIT rejected) ibc0 fresh1
                                       h0 h1 sh))))
           None).
  reflexivity.
Defined.

Lemma C10_witness :
  (exists log,
     nth_error (Logs twoLogs) 1 = Some log
     /\ value (InitializeConnection (world INIT INIT accepted) fresh0 fresh1
                 h0 h1 sh)
        = match
            ParseConnectionIDFromEvents (world INIT INIT accepted)
              (LogEvents log)
          with
          | Ok _ => Ret (true, None)
          | Err e => Ret (false, Some e)
          end)
  /\ value (InitializeConnection (world INIT INIT (oneLog, true, None)) ibc0
              fresh1 h0 h1 sh)
     = Panic (IndexOutOfRange 1 1).
Proof.
  split.
  - apply (proj1 (C10_second_log_index (world INIT INIT accepted) fresh0
                    fresh1 h0 h1 sh Src
                    [ UpdateClient (pathEnd fresh0) h1 "relayer on ibc0";
                      ConnInit "ibc" (pathEnd fresh0) (pathEnd fresh1)
                        "relayer on ibc0" ]
                    twoLogs None eq_refl eq_refl)).
    cbn. lia.
  - apply (proj2 (C10_second_log_index (world INIT INIT (oneLog, true, None))
                    ibc0 fresh1 h0 h1 sh Dst
                    [ UpdateClient (pathEnd fresh1) h0 "relayer on ibc1";
                      openTry (pathEnd fresh1) ibc0 "relayer on ibc1" ]
                    oneLog None eq_refl eq_refl)).
    cbn. lia.
Defined.


(** * Further properties *)

(** ** path.go *)

Section BuilderFacts.

Context {Header Proof Prefix Coins : Type}.
Variable defaultChainPrefix : Prefix.
Variable defaultIBCVersions : list string.
Variable defaultIBCVersion defaultTransferVersion : string.

Lemma add64_next (h : Z) :
  0 <= h < two64 ->
  add64 h 1 = if (h =? maxUint64)%Z then 0 else h + 1.
Proof.
  intros Hh. destruct (Z.eqb_spec h maxUint64) as [->|Hne].
  - apply add64_max.
  - apply add64_small. unfold maxUint64 in *. lia.
Qed.

(** X1: every handshake message that carries a proof (connection try, ack
    and confirm, channel try, ack, confirm and close-confirm) carries as
    proof height the uint64 successor of the height in the counterparty's
    query response: one more, and 0 after the largest uint64. *)
Theorem X1_handshake_proof_heights (pe dst : PathEnd)
    (conn : Path.ConnectionResponse Proof)
    (cons : PathMsgs.ConsensusStateResponse Proof) (csHeight : Z)
    (chan : PathMsgs.ChannelResponse Proof) (signer : Address) :
  0 <= ConnProofHeight conn < two64 ->
  0 <= PathMsgs.ChanProofHeight chan < two64 ->
  let next h := if (h =? maxUint64)%Z then 0 else h + 1 in
  let connNext := Some (next (ConnProofHeight conn)) in
  let chanNext := Some (next (PathMsgs.ChanProofHeight chan)) in
  msgProofHeight
    (@PathMsgs.ConnTry Header Proof Prefix defaultChainPrefix
       defaultIBCVersions pe dst conn cons csHeight signer) = connNext
  /\ msgProofHeight
       (@PathMsgs.ConnAck Header Proof Prefix defaultIBCVersion pe conn cons
          csHeight signer) = connNext
  /\ msgProofHeight (@ConnConfirm Header Proof Prefix pe conn signer)
     = connNext
  /\ PathMsgs.chanMsgProofHeight
       (@PathMsgs.ChanTry Proof Coins defaultTransferVersion pe dst chan
          signer) = chanNext
  /\ PathMsgs.chanMsgProofHeight (@PathMsgs.ChanAck Proof Coins pe chan signer)
     = chanNext
  /\ PathMsgs.chanMsgProofHeight
       (@PathMsgs.ChanConfirm Proof Coins pe chan signer) = chanNext
  /\ PathMsgs.chanMsgProofHeight
       (@PathMsgs.ChanCloseConfirm Proof Coins pe chan signer) = chanNext.
Proof.
  intros Hconn Hchan next connNext chanNext. subst connNext chanNext next.
  cbn. rewrite !(add64_next _ Hconn), !(add64_next _ Hchan).
  repeat split.
Qed.

(** X2: PacketMsg, built on the receiving chain [c] for a packet sent by
    [dst], carries the packet that runs from [dst]'s port and channel to
    [c]'s.  Its sequence is the int64 handed in read as a uint64: the same
    number when it is not negative, 2^64 more when it is.  For a sequence
    that is not negative this is the very packet the acknowledgement and the
    timeout message carry when they are built on the sending end against the
    receiving end; and the proof height is the uint64 successor of the
    commitment response's. *)
Theorem X2_packet_messages_agree {Provider : Type}
    (MustGetAddress : Relayer.Chain Provider -> Address)
    (c dst : Relayer.Chain Provider) (xferPacket ack : bytes)
    (timeout timeoutStamp seq : Z)
    (dstCommitRes : PathMsgs.CommitmentResponse Proof)
    (proofAck proofTimeout : Proof) (hAck hTimeout : Z)
    (signer : Address) :
  - 2 ^ 63 <= seq < 2 ^ 63 ->
  let recv :=
    @PathMsgs.PacketMsg Header Proof Prefix Provider MustGetAddress c dst
      xferPacket timeout timeoutStamp seq dstCommitRes in
  PathMsgs.msgPacket recv
  = Some
      (NewChanPacket xferPacket (if (seq <? 0)%Z then seq + two64 else seq)
         (PortID (pathEnd dst)) (ChannelID (pathEnd dst))
         (PortID (pathEnd c)) (ChannelID (pathEnd c)) timeout timeoutStamp)
  /\ msgProofHeight recv
     = Some (add64 (PathMsgs.CommitProofHeight dstCommitRes) 1)
  /\ (0 <= seq ->
      PathMsgs.msgPacket recv
      = PathMsgs.msgPacket
          (@MsgAck Header Proof Prefix (pathEnd dst) (pathEnd c) seq timeout
             timeoutStamp ack xferPacket proofAck hAck signer)
      /\ PathMsgs.msgPacket recv
         = PathMsgs.msgPacket
             (@MsgTimeout Header Proof Prefix (pathEnd dst) (pathEnd c)
                xferPacket seq timeout timeoutStamp proofTimeout hTimeout
                signer)).
Proof.
  intros Hseq recv. subst recv.
  assert (Hwrap : wrap64 seq = if (seq <? 0)%Z then seq + two64 else seq).
  { unfold wrap64, two64 in *.
    destruct (Z.ltb_spec seq 0) as [Hneg|Hpos].
    - symmetry. apply Z.mod_unique with (q := -1); lia.
    - apply Z.mod_small. lia. }
  cbn. unfold NewPacket. rewrite Hwrap.
  split; [reflexivity|]. split; [reflexivity|].
  intros Hpos. destruct (Z.ltb_spec seq 0); [lia|]. split; reflexivity.
Qed.

End BuilderFacts.

(** The order of a channel. *)

Lemma upperASCII_idempotent (a : Ascii.ascii) :
  PathMsgs.upperASCII (PathMsgs.upperASCII a) = PathMsgs.upperASCII a.
Proof.
  destruct a as [[|] [|] [|] [|] [|] [|] [|] [|]]; reflexivity.
Qed.

Lemma ToUpper_idempotent (s : string) :
  PathMsgs.ToUpper (PathMsgs.ToUpper s) = PathMsgs.ToUpper s.
Proof.
  induction s as [|a r IH]; cbn; [reflexivity|].
  rewrite upperASCII_idempotent, IH. reflexivity.
Qed.

Lemma equalFold_ToUpper (s t : string) :
  PathMsgs.equalFold s t = true <-> PathMsgs.ToUpper s = PathMsgs.ToUpper t.
Proof.
  revert t. induction s as [|a s IH]; intros [|b t]; cbn;
    try (split; [reflexivity | reflexivity]);
    try (split; intros H; discriminate H).
  rewrite andb_true_iff, Ascii.eqb_eq, IH. split.
  - intros [-> ->]. reflexivity.
  - intros H. injection H as H1 H2. split; assumption.
Qed.

(** X3: getOrder reads the PathEnd's order string without regard to the case
    of its letters: any spelling of "ordered" gives ORDERED, any spelling of
    "unordered" gives UNORDERED, and every other string gives NONE, never an
    error; OrderFromString alone accepts the upper-case spelling only. *)
Theorem X3_getOrder_ignores_case (pe : PathEnd) :
  PathMsgs.isASCII (Order pe) = true ->
  (PathMsgs.equalFold (Order pe) "unordered" = true ->
     PathMsgs.getOrder pe = PathMsgs.UNORDERED)
  /\ (PathMsgs.equalFold (Order pe) "ordered" = true ->
        PathMsgs.getOrder pe = PathMsgs.ORDERED)
  /\ (PathMsgs.equalFold (Order pe) "unordered" = false ->
      PathMsgs.equalFold (Order pe) "ordered" = false ->
        PathMsgs.getOrder pe = PathMsgs.NONE)
  /\ (PathMsgs.OrderFromString (Order pe) = PathMsgs.ORDERED
      <-> Order pe = "ORDERED")
  /\ PathMsgs.getOrder
       (mkPathEnd (ChainID pe) (ClientID pe) (ConnectionID pe) (ChannelID pe)
          (PortID pe) (PathMsgs.ToUpper (Order pe)))
     = PathMsgs.getOrder pe.
Proof.
  intros _. unfold PathMsgs.getOrder, PathMsgs.OrderFromString.
  set (s := Order pe).
  assert (Hun : String.eqb (PathMsgs.ToUpper s) "UNORDERED"
                = PathMsgs.equalFold s "unordered").
  { destruct (PathMsgs.equalFold s "unordered") eqn:Hf.
    - apply equalFold_ToUpper in Hf. rewrite Hf. reflexivity.
    - apply String.eqb_neq. intros Heq.
      assert (PathMsgs.equalFold s "unordered" = true)
        by (apply equalFold_ToUpper; exact Heq).
      congruence. }
  assert (Hor : String.eqb (PathMsgs.ToUpper s) "ORDERED"
                = PathMsgs.equalFold s "ordered").
  { destruct (PathMsgs.equalFold s "ordered") eqn:Hf.
    - apply equalFold_ToUpper in Hf. rewrite Hf. reflexivity.
    - apply String.eqb_neq. intros Heq.
      assert (PathMsgs.equalFold s "ordered" = true)
        by (apply equalFold_ToUpper; exact Heq).
      congruence. }
  rewrite Hun, Hor.
  split; [intros ->; reflexivity|].
  split.
  { intros Ho. rewrite Ho.
    destruct (PathMsgs.equalFold s "unordered") eqn:Hu; [|reflexivity].
    apply equalFold_ToUpper in Hu. apply equalFold_ToUpper in Ho.
    rewrite Hu in Ho. discriminate. }
  split; [intros -> ->; reflexivity|].
  split.
  - destruct (String.eqb_spec s "UNORDERED") as [->|Hn1].
    + split; intros H; discriminate.
    + destruct (String.eqb_spec s "ORDERED") as [->|Hn2].
      * split; reflexivity.
      * split; [intros H; discriminate | intros H; contradiction].
  - cbn [Order]. rewrite ToUpper_idempotent, Hun, Hor. reflexivity.
Qed.


(** ** query.go *)

Section QueryFacts.

Context {Header Proof Prefix SyncHeaders Events Provider : Type}.
Implicit Types (env other : Env Header Proof Prefix SyncHeaders Events
                              Provider).
Implicit Types (src dst : Chain Provider).

(** With at most one error the scheduling of the two goroutines does not
    show. *)
Lemma errgroupWait_schedule (b b' : bool) (e1 e2 : option error) :
  e1 = None \/ e2 = None -> errgroupWait b e1 e2 = errgroupWait b' e1 e2.
Proof.
  unfold errgroupWait. intros H.
  destruct b, b', e1, e2; try reflexivity; destruct H; discriminate.
Qed.

(** X4: QueryLatestHeights and QueryConnectionPair hand back what each of
    the two fetches returned, also beside a non-nil error (they do not clear
    their results on failure).  Their answer does not depend on how the two
    goroutines are scheduled unless both fetches fail; when both fail the
    error is the first chain's or the second's, as scheduled. *)
Theorem X4_heights_and_connections_pass_through env other src dst
    (srcH dstH : Z) :
  let h1 := QueryLatestHeight env (ChainProvider src) in
  let h2 := QueryLatestHeight env (ChainProvider dst) in
  let q1 :=
    QueryConnection env (ChainProvider src) srcH (ConnectionID (pathEnd src))
  in
  let q2 :=
    QueryConnection env (ChainProvider dst) dstH (ConnectionID (pathEnd dst))
  in
  QueryLatestHeight other (ChainProvider src) = h1 ->
  QueryLatestHeight other (ChainProvider dst) = h2 ->
  QueryConnection other (ChainProvider src) srcH (ConnectionID (pathEnd src))
  = q1 ->
  QueryConnection other (ChainProvider dst) dstH (ConnectionID (pathEnd dst))
  = q2 ->
  fst (QueryLatestHeights env src dst) = (fst h1, fst h2)
  /\ fst (QueryConnectionPair env src dst srcH dstH) = (fst q1, fst q2)
  /\ (snd h1 = None \/ snd h2 = None ->
      QueryLatestHeights other src dst = QueryLatestHeights env src dst)
  /\ (snd q1 = None \/ snd q2 = None ->
      QueryConnectionPair other src dst srcH dstH
      = QueryConnectionPair env src dst srcH dstH)
  /\ (forall e1 e2,
        snd h1 = Some e1 -> snd h2 = Some e2 ->
        snd (QueryLatestHeights env src dst)
        = Some (if srcFirst env then e1 else e2))
  /\ (forall e1 e2,
        snd q1 = Some e1 -> snd q2 = Some e2 ->
        snd (QueryConnectionPair env src dst srcH dstH)
        = Some (if srcFirst env then e1 else e2)).
Proof.
  intros h1 h2 q1 q2 Hh1 Hh2 Hq1 Hq2.
  unfold QueryLatestHeights, QueryConnectionPair.
  rewrite Hh1, Hh2, Hq1, Hq2. fold h1 h2 q1 q2.
  destruct h1 as [v1 e1], h2 as [v2 e2], q1 as [c1 f1], q2 as [c2 f2].
  cbn [fst snd].
  split; [reflexivity|]. split; [reflexivity|].
  split.
  { intros Hone.
    now rewrite (errgroupWait_schedule (srcFirst other) (srcFirst env) e1 e2). }
  split.
  { intros Hone.
    now rewrite (errgroupWait_schedule (srcFirst other) (srcFirst env) f1 f2). }
  split.
  - intros a b -> ->. unfold errgroupWait. destruct (srcFirst env); reflexivity.
  - intros a b -> ->. unfold errgroupWait. destruct (srcFirst env); reflexivity.
Qed.

End QueryFacts.

Section ProviderFacts.

Context {Provider ChannelResponse LightHeader ChannelInfo Any TMClientState
         OtherClientState : Type}.
Implicit Types (env : Query.Providers Provider ChannelResponse LightHeader
                        ChannelInfo Any TMClientState OtherClientState).
Implicit Types (src dst c : Chain Provider).

(** X5: QueryChannelPair and GetLightSignedHeadersAtHeights are all or
    nothing: as soon as one of the two fetches fails they return no value at
    all and an error that is one of the fetches'; when neither fails they
    return exactly the two fetched values and a nil error. *)
Theorem X5_channel_pair_and_light_headers_all_or_nothing env src dst
    (srcH dstH : Z) (srcChanID dstChanID srcPortID dstPortID : string) :
  let c1 :=
    Query.ProviderQueryChannel env (ChainProvider src) srcH srcChanID
      srcPortID in
  let c2 :=
    Query.ProviderQueryChannel env (ChainProvider dst) dstH dstChanID
      dstPortID in
  let l1 := Query.GetLightSignedHeaderAtHeight env (ChainProvider src) srcH in
  let l2 := Query.GetLightSignedHeaderAtHeight env (ChainProvider dst) dstH in
  (snd c1 <> None \/ snd c2 <> None ->
     exists e,
       Query.QueryChannelPair env src dst srcH dstH srcChanID dstChanID
         srcPortID dstPortID = (None, None, Some e)
       /\ (snd c1 = Some e \/ snd c2 = Some e))
  /\ (snd c1 = None -> snd c2 = None ->
      Query.QueryChannelPair env src dst srcH dstH srcChanID dstChanID
        srcPortID dstPortID = (fst c1, fst c2, None))
  /\ (snd l1 <> None \/ snd l2 <> None ->
        exists e,
          Query.GetLightSignedHeadersAtHeights env src dst srcH dstH
          = (None, None, Some e)
          /\ (snd l1 = Some e \/ snd l2 = Some e))
  /\ (snd l1 = None -> snd l2 = None ->
      Query.GetLightSignedHeadersAtHeights env src dst srcH dstH
      = (fst l1, fst l2, None)).
Proof.
  intros c1 c2 l1 l2.
  unfold Query.QueryChannelPair, Query.GetLightSignedHeadersAtHeights.
  fold c1 c2 l1 l2.
  destruct c1 as [v1 e1], c2 as [v2 e2], l1 as [w1 f1], l2 as [w2 f2].
  cbn [fst snd].
  split; [|split; [|split]].
  - intros Hfail.
    destruct (errgroupWait (Query.firstFirst env) e1 e2) as [e|] eqn:Hwait.
    + exists e. split; [reflexivity|]. now apply errgroupWait_Some in Hwait.
    + apply errgroupWait_None in Hwait. destruct Hwait, Hfail; contradiction.
  - intros -> ->. destruct (Query.firstFirst env); reflexivity.
  - intros Hfail.
    destruct (errgroupWait (Query.firstFirst env) f1 f2) as [e|] eqn:Hwait.
    + exists e. split; [reflexivity|]. now apply errgroupWait_Some in Hwait.
    + apply errgroupWait_None in Hwait. destruct Hwait, Hfail; contradiction.
  - intros -> ->. destruct (Query.firstFirst env); reflexivity.
Qed.

(** The first element that satisfies the test, with what comes before it. *)
Lemma find_first {A : Type} (f : A -> bool) (l : list A) (a : A) :
  List.find f l = Some a ->
  f a = true
  /\ exists before after,
       l = (before ++ a :: after)%list
       /\ forall x, In x before -> f x = false.
Proof.
  induction l as [|x l IH]; cbn; [discriminate|].
  destruct (f x) eqn:Hx.
  - intros H. injection H as <-. split; [exact Hx|].
    exists [], l. split; [reflexivity|]. intros y [].
  - intros H. destruct (IH H) as (Ha & before & after & -> & Hbefore).
    split; [exact Ha|].
    exists (x :: before), after. split; [reflexivity|].
    intros y [<- | Hy]; [exact Hx | apply Hbefore, Hy].
Qed.

(** X6: QueryChannel returns either a channel or an error, never both and
    never neither.  A channel it returns has the identifier asked for and is
    the first such channel in the list the connection-channels query
    returned at the height the height query returned.  When both queries
    succeed, it returns the not-found error, naming the channel, the chain,
    the client and the connection, exactly when no channel in the list has
    the identifier. *)
Theorem X6_QueryChannel_finds_first_match env src (channelID : string) :
  let r := Query.QueryChannel env src channelID in
  ((fst r = None /\ snd r <> None) \/ (fst r <> None /\ snd r = None))
  /\ (forall channel,
        fst r = Some channel ->
        Query.ChannelId channel = channelID
        /\ exists srch before after,
             Query.retryQueryLatestHeight env (ChainProvider src) = Ok srch
             /\ Query.retryQueryConnectionChannels env (ChainProvider src)
                  srch (ConnectionID (pathEnd src))
                = Ok (before ++ channel :: after)%list
             /\ forall x, In x before -> Query.ChannelId x <> channelID)
  /\ (forall srch srcChannels,
        Query.retryQueryLatestHeight env (ChainProvider src) = Ok srch ->
        Query.retryQueryConnectionChannels env (ChainProvider src) srch
          (ConnectionID (pathEnd src)) = Ok srcChannels ->
        ((forall x, In x srcChannels -> Query.ChannelId x <> channelID)
         <-> r = (None, Some (Query.channelNotFound src channelID)))).
Proof.
  intros r. subst r. unfold Query.QueryChannel.
  destruct (Query.retryQueryLatestHeight env (ChainProvider src))
    as [srch|e] eqn:Hh.
  2:{ cbn. split; [left; split; [reflexivity|discriminate]|].
      split; intros; discriminate. }
  destruct (Query.retryQueryConnectionChannels env (ChainProvider src) srch
              (ConnectionID (pathEnd src))) as [chans|e] eqn:Hc.
  2:{ cbn. split; [left; split; [reflexivity|discriminate]|].
      split; [intros; discriminate|].
      intros srch' chans' Hs. injection Hs as <-. rewrite Hc. discriminate. }
  destruct (List.find
              (fun channel => String.eqb (Query.ChannelId channel) channelID)
              chans) as [ch|] eqn:Hfind; cbn.
  - destruct (find_first _ _ _ Hfind)
      as (Hid & before & after & -> & Hbefore).
    apply String.eqb_eq in Hid.
    split; [right; split; [discriminate|reflexivity]|].
    split.
    + intros channel Hch. injection Hch as <-. split; [exact Hid|].
      exists srch, before, after. split; [reflexivity|].
      split; [exact Hc|].
      intros x Hx. apply String.eqb_neq. apply Hbefore, Hx.
    + intros srch' chans' Hs Hc'. injection Hs as <-.
      rewrite Hc in Hc'. injection Hc' as <-.
      split; [|discriminate].
      intros Hnone. exfalso.
      apply (Hnone ch); [|exact Hid].
      apply in_or_app. right. left. reflexivity.
  - split; [left; split; [reflexivity|discriminate]|].
    split; [intros; discriminate|].
    intros srch' chans' Hs Hc'. injection Hs as <-.
    rewrite Hc in Hc'. injection Hc' as <-.
    split; [reflexivity|].
    intros _ x Hx. apply String.eqb_neq.
    exact (List.find_none _ _ Hfind x Hx).
Qed.

(** X7: QueryTMClientState returns a nil error exactly when the client
    state query succeeds, the state unpacks and it is a tendermint state;
    the state returned is then that one.  In every other case it returns
    the empty client state, never a nil one, with a non-nil error; the
    error is the query's or the unpacking's when one of these failed. *)
Theorem X7_QueryTMClientState_outcomes env c (height : Z) :
  let r := Query.QueryTMClientState env c height in
  let q :=
    Query.QueryClientStateResponse env (ChainProvider c) height
      (ClientID (pathEnd c)) in
  (forall cs,
     r = (cs, None)
     <-> exists any,
           q = Ok any
           /\ Query.UnpackClientState env any = Ok (Query.Tendermint cs))
  /\ (snd r <> None -> fst r = Query.emptyClientState env)
  /\ (forall e, q = Err e -> r = (Query.emptyClientState env, Some e))
  /\ (forall any e,
        q = Ok any -> Query.UnpackClientState env any = Err e ->
        r = (Query.emptyClientState env, Some e)).
Proof.
  intros r q. subst r q.
  unfold Query.QueryTMClientState, Query.CastClientStateToTMType.
  destruct (Query.QueryClientStateResponse env (ChainProvider c) height
              (ClientID (pathEnd c))) as [any|e] eqn:Hq.
  - destruct (Query.UnpackClientState env any) as [[cs'|other]|e] eqn:Hu.
    + split.
      { intros cs. split.
        - intros H. injection H as <-. exists any. split; [reflexivity|exact Hu].
        - intros (any' & Hany & Hu'). injection Hany as <-.
          rewrite Hu in Hu'. injection Hu' as <-. reflexivity. }
      split; [intros H; contradiction H; reflexivity|].
      split; [intros; discriminate|].
      intros any' e Hany Hu'. injection Hany as <-.
      rewrite Hu in Hu'. discriminate.
    + split.
      { intros cs. split; [intros H; discriminate|].
        intros (any' & Hany & Hu'). injection Hany as <-.
        rewrite Hu in Hu'. discriminate. }
      split; [reflexivity|].
      split; [intros; discriminate|].
      intros any' e Hany Hu'. injection Hany as <-.
      rewrite Hu in Hu'. discriminate.
    + split.
      { intros cs. split; [intros H; discriminate|].
        intros (any' & Hany & Hu'). injection Hany as <-.
        rewrite Hu in Hu'. discriminate. }
      split; [reflexivity|].
      split; [intros; discriminate|].
      intros any' e' Hany Hu'. injection Hany as <-.
      rewrite Hu in Hu'. injection Hu' as <-. reflexivity.
  - split.
    { intros cs. split; [intros H; discriminate|].
      intros (any' & Hany & _). discriminate. }
    split; [reflexivity|].
    split; [intros e' H; injection H as <-; reflexivity|].
    intros; discriminate.
Qed.

End ProviderFacts.

(** ** The account retriever *)

Section AccountFacts.

Context {ClientCtx AccAddress Acct : Type}.
Variable GetAccountWithHeight :
  ClientCtx -> AccAddress -> option Acct * Z * option error.
Variable GetAccountNumber : Acct -> Z.
Variable GetSequence : Acct -> Z.

(** X8: EnsureExists returns the error of GetAccountWithHeight, and so does
    GetAccountNumberSequence, which then gives 0 for both numbers whatever
    account came with the error, while GetAccount hands on the account it
    was given together with the error.  Without an error, the numbers are
    those of the account GetAccount returns. *)
Theorem X8_account_errors_and_numbers (clientCtx : ClientCtx)
    (addr : AccAddress) :
  let got := GetAccountWithHeight clientCtx addr in
  Account.GetAccount GetAccountWithHeight clientCtx addr
  = (fst (fst got), snd got)
  /\ Account.EnsureExists GetAccountWithHeight clientCtx addr = snd got
  /\ (forall e,
        snd got = Some e ->
        Account.GetAccountNumberSequence GetAccountWithHeight
          GetAccountNumber GetSequence clientCtx addr
        = Account.Returns (0, 0, Some e))
  /\ (forall acc,
        Account.GetAccount GetAccountWithHeight clientCtx addr
        = (Some acc, None) ->
        Account.EnsureExists GetAccountWithHeight clientCtx addr = None
        /\ Account.GetAccountNumberSequence GetAccountWithHeight
             GetAccountNumber GetSequence clientCtx addr
           = Account.Returns (GetAccountNumber acc, GetSequence acc, None)).
Proof.
  intros got. subst got.
  unfold Account.GetAccountNumberSequence, Account.EnsureExists,
    Account.GetAccount.
  destruct (GetAccountWithHeight clientCtx addr) as [[acc h] err].
  cbn [fst snd].
  split; [reflexivity|]. split; [reflexivity|]. split.
  - intros e ->. destruct acc; reflexivity.
  - intros acc' H. injection H as -> ->. split; reflexivity.
Qed.

End AccountFacts.


(** ** connection.go, beyond the claims *)

Section ConnectionFacts.

Context {Header Proof Prefix SyncHeaders Events Provider : Type}.
Implicit Types (env : Env Header Proof Prefix SyncHeaders Events Provider).
Implicit Types (envs : nat -> Env Header Proof Prefix SyncHeaders Events
                                Provider).
Implicit Types (c src dst : Chain Provider).

(** X9: InitializeConnection submits every bundle on the chain it built the
    bundle for.  That chain is src whenever src has no connection
    identifier, and dst otherwise; its identifier is empty; the bundle is
    the chain's client update with the other chain's header, then its
    handshake message; and it is the call's only submission. *)
Theorem X9_InitializeConnection_submits_where_it_builds env src dst
    srcUpdateHeader dstUpdateHeader sh sub :
  let r :=
    InitializeConnection env src dst srcUpdateHeader dstUpdateHeader sh in
  In sub (sent r) ->
  sent r = [sub]
  /\ (on sub = Src <-> ConnectionID (pathEnd src) = "")
  /\ ConnectionID (pathEnd (chainOf (on sub) src dst)) = ""
  /\ updateThenHandshake env (chainOf (on sub) src dst)
       (chainOf (otherSide (on sub)) src dst) sh
       (match on sub with
        | Src => dstUpdateHeader
        | Dst => srcUpdateHeader
        end) (msgs sub).
Proof.
  intros r Hin. subst r.
  unfold InitializeConnection in *.
  destruct (isEmpty (ConnectionID (pathEnd src))) eqn:Es;
    destruct (isEmpty (ConnectionID (pathEnd dst))) eqn:Ed;
    cbn [andb negb] in *;
    repeat match goal with
      | H : context [match ?x with Ok _ => _ | Err _ => _ end] |- _ =>
          destruct x eqn:?
      end;
    try (cbn in Hin; contradiction);
    match goal with
    | H : In _ (sent (sendAndSetConnectionID ?e ?side ?s ?d ?b)) |- _ =>
        destruct (sendAndSetConnectionID_spec e side s d b) as [Hsent _];
        rewrite Hsent in H |- *; destruct H as [<-|[]]
    end;
    cbn [on msgs chainOf otherSide];
    (split; [reflexivity|]).
  - split; [split; [intros _; now apply isEmpty_true | reflexivity]|].
    split; [now apply isEmpty_true|].
    eexists. split; [reflexivity|]. left. reflexivity.
  - split; [split; [intros _; now apply isEmpty_true | reflexivity]|].
    split; [now apply isEmpty_true|].
    eexists. split; [reflexivity|]. right; left. assumption.
  - split.
    { split; [intros H; discriminate|].
      intros H. apply isEmpty_true in H. congruence. }
    split; [now apply isEmpty_true|].
    eexists. split; [reflexivity|]. right; left. assumption.
Qed.

(** X10: a step submits at most once.  It reports success only after one
    submission that SendMsgs reported as successful, and then with a nil
    error.  It panics only in InitializeConnection, after an accepted
    submission whose result has fewer than two logs. *)
Theorem X10_step_submits_at_most_once env src dst :
  let r := ExecuteConnectionStep env src dst in
  (List.length (sent r) <= 1)%nat
  /\ (forall last e,
        value r = Ret (true, last, e) ->
        e = None
        /\ exists side bundle res err,
             sent r = [mkSubmission side bundle]
             /\ SendMsgs env (chainOf side src dst) bundle = (res, true, err))
  /\ (forall k,
        value r = Panic k ->
        exists side bundle res err,
          sent r = [mkSubmission side bundle]
          /\ SendMsgs env (chainOf side src dst) bundle = (res, true, err)
          /\ (List.length (Logs res) < 2)%nat
          /\ k = IndexOutOfRange 1 (List.length (Logs res))
          /\ (isEmpty (ConnectionID (pathEnd src))
              || isEmpty (ConnectionID (pathEnd dst)) = true)).
Proof.
  intros r.
  destruct (ExecuteConnectionStep_run env src dst)
    as [((e & Hv) & Hsent & _)
       | [(sh & srcHeader & dstHeader & _ & _ & Hempty & Hi)
         | [(sh & srcHeader & dstHeader & srcConn & dstConn & e & _ & _ & Hv
             & Hsent & _)
           | (sh & srcHeader & dstHeader & srcConn & dstConn & bundle & last
              & res & ok & err & _ & _ & Hsend & Hv & Hsent & _)]]];
    fold r in Hv, Hsent || fold r in Hi.
  - rewrite Hsent, Hv. cbn.
    split; [lia|]. split; intros; discriminate.
  - cbv zeta in Hi. destruct Hi as (Hsent & _ & _ & Hv).
    rewrite Hsent, Hv.
    destruct (InitializeConnection_run env src dst srcHeader dstHeader sh)
      as [(Hnil & _ & _ & e & Hvi)
         | (side & bundle & res & ok & err & Hsent' & _ & Hsend & Hrun)].
    + rewrite Hnil, Hvi. cbn.
      split; [lia|]. split; intros; discriminate.
    + rewrite Hsent'. cbn [List.length].
      split; [lia|].
      destruct Hrun
        as [(-> & Hvi & _)
           | [(-> & Hlog & Hvi & _)
             | [(log & e & -> & _ & _ & Hvi & _)
               | (log & id & -> & _ & _ & Hvi & _)]]];
        rewrite Hvi; cbn.
      * split; [destruct err; cbn; intros; discriminate
               | destruct err; cbn; intros; discriminate].
      * split; [intros; discriminate|].
        intros k Hk. injection Hk as <-.
        exists side, bundle, res, err.
        apply nth_error_None in Hlog.
        repeat split; try assumption; lia.
      * split; intros; discriminate.
      * split; [|intros; discriminate].
        intros last e He. injection He as <- <-.
        split; [reflexivity|]. exists side, bundle, res, err. auto.
  - rewrite Hsent, Hv. cbn.
    split; [lia|]. split; intros; discriminate.
  - rewrite Hsent, Hv. cbn [List.length].
    split; [lia|].
    destruct ok.
    + split; [|intros; discriminate].
      intros last' e He. injection He as <- <-.
      split; [reflexivity|]. exists Dst, bundle, res, err. auto.
    + split; intros; discriminate.
Qed.

Lemma sameButConnectionID_trans (a b c : Chain Provider) :
  sameButConnectionID a b -> sameButConnectionID b c ->
  sameButConnectionID a c.
Proof.
  unfold sameButConnectionID.
  intros (H1 & H2 & H3 & H4 & H5 & H6 & H7 & H8)
         (K1 & K2 & K3 & K4 & K5 & K6 & K7 & K8).
  repeat split; congruence.
Qed.

(** A step keeps everything but connection identifiers, and keeps an
    identifier that is set. *)
Lemma ExecuteConnectionStep_frame env src dst :
  let r := ExecuteConnectionStep env src dst in
  sameButConnectionID src (srcAfter r)
  /\ sameButConnectionID dst (dstAfter r)
  /\ (ConnectionID (pathEnd src) <> "" -> srcAfter r = src)
  /\ (ConnectionID (pathEnd dst) <> "" -> dstAfter r = dst).
Proof.
  intros r.
  assert (Hsame : srcAfter r = src /\ dstAfter r = dst ->
    sameButConnectionID src (srcAfter r)
    /\ sameButConnectionID dst (dstAfter r)
    /\ (ConnectionID (pathEnd src) <> "" -> srcAfter r = src)
    /\ (ConnectionID (pathEnd dst) <> "" -> dstAfter r = dst)).
  { intros [-> ->]. repeat split; apply sameButConnectionID_refl. }
  destruct (ExecuteConnectionStep_run env src dst)
    as [(_ & _ & Hs & Hd)
       | [(sh & srcHeader & dstHeader & _ & _ & _ & Hi)
         | [(sh & srcHeader & dstHeader & srcConn & dstConn & e & _ & _ & _
             & _ & Hs & Hd)
           | (sh & srcHeader & dstHeader & srcConn & dstConn & bundle & last
              & res & ok & err & _ & _ & _ & _ & _ & Hs & Hd)]]];
    try (apply Hsame; split; assumption).
  cbv zeta in Hi. destruct Hi as (_ & Hs & Hd & _). fold r in Hs, Hd.
  destruct (InitializeConnection_run env src dst srcHeader dstHeader sh)
    as [(_ & Hs' & Hd' & _)
       | (side & bundle & res & ok & err & _ & Hid & _
          & [(_ & _ & Hs' & Hd')
            | [(_ & _ & _ & Hs' & Hd')
              | [(log & e' & _ & _ & _ & _ & Hs' & Hd')
                | (log & id & _ & _ & _ & _ & Hs' & Hd')]]])];
    try (apply Hsame; split; congruence).
  rewrite Hs, Hd, Hs', Hd'.
  destruct side; cbn [chainOf] in Hid.
  - split; [apply sameButConnectionID_set|].
    split; [apply sameButConnectionID_refl|].
    split; [intros H; contradiction | reflexivity].
  - split; [apply sameButConnectionID_refl|].
    split; [apply sameButConnectionID_set|].
    split; [reflexivity | intros H; contradiction].
Qed.

Lemma loopBody_chains env maxRetries failed c dst :
  srcAfter (loopBody env maxRetries failed c dst)
  = srcAfter (ExecuteConnectionStep env c dst)
  /\ dstAfter (loopBody env maxRetries failed c dst)
     = dstAfter (ExecuteConnectionStep env c dst)
  /\ sent (loopBody env maxRetries failed c dst)
     = sent (ExecuteConnectionStep env c dst).
Proof.
  unfold loopBody.
  destruct (value (ExecuteConnectionStep env c dst))
    as [[[success lastStep] [e|]]|k]; cbn; [repeat split| |repeat split].
  destruct (success && lastStep).
  - destruct (debug (srcAfter (ExecuteConnectionStep env c dst)));
      [|repeat split].
    destruct (GetLatestLightHeights env _ _) as [[srcH dstH]|e];
      [|repeat split].
    destruct (QueryConnectionPair env _ _ srcH dstH) as [[? ?] [e|]];
      repeat split.
  - destruct success; [repeat split|].
    destruct (add64 failed 1 >? maxRetries); repeat split.
Qed.

(** What holds of a run of the loop from any tick on. *)
Lemma connectionLoop_invariants envs maxRetries :
  forall fuel n failed c dst log,
    let run := connectionLoop fuel envs maxRetries n failed c dst log in
    sameButConnectionID c (srcEnd run)
    /\ sameButConnectionID dst (dstEnd run)
    /\ (ConnectionID (pathEnd c) <> "" -> srcEnd run = c)
    /\ (ConnectionID (pathEnd dst) <> "" -> dstEnd run = dst)
    /\ (n <= attempts run <= n + fuel)%nat
    /\ (List.length (submitted run)
        <= List.length log + (attempts run - n))%nat.
Proof.
  induction fuel as [|fuel IH]; intros n failed c dst log run; subst run.
  - cbn. split; [apply sameButConnectionID_refl|].
    split; [apply sameButConnectionID_refl|].
    split; [reflexivity|]. split; [reflexivity|]. split; lia.
  - cbn [connectionLoop].
    destruct (loopBody_chains (envs n) maxRetries failed c dst)
      as (Hs & Hd & Hsent).
    destruct (ExecuteConnectionStep_frame (envs n) c dst)
      as (Fs & Fd & Ks & Kd).
    pose proof (ExecuteConnectionStep_run (envs n) c dst) as Hcases.
    assert (Hlen : (List.length (sent (ExecuteConnectionStep (envs n) c dst))
                    <= 1)%nat).
    { destruct Hcases
        as [(_ & H & _)
           | [(sh & srcHeader & dstHeader & _ & _ & _ & Hi)
             | [(sh & srcHeader & dstHeader & srcConn & dstConn & e & _ & _
                 & _ & H & _)
               | (sh & srcHeader & dstHeader & srcConn & dstConn & bundle
                  & last & res & ok & err & _ & _ & _ & _ & H & _)]]];
        try (rewrite H; cbn; lia).
      cbv zeta in Hi. destruct Hi as (H & _). rewrite H.
      destruct (InitializeConnection_run (envs n) c dst srcHeader dstHeader
                  sh) as [(H' & _) | (? & ? & ? & ? & ? & H' & _)];
        rewrite H'; cbn; lia. }
    clear Hcases.
    rewrite Hs, Hd, Hsent.
    set (r := ExecuteConnectionStep (envs n) c dst) in *.
    destruct (value (loopBody (envs n) maxRetries failed c dst))
      as [[failed'|err failed']|k]; cbn [srcEnd dstEnd attempts submitted].
    + specialize (IH (S n) failed' (srcAfter r) (dstAfter r)
                    (log ++ sent r)%list).
      cbv zeta in IH.
      destruct IH as (I1 & I2 & I3 & I4 & I5 & I6).
      rewrite length_app in I6.
      split; [eapply sameButConnectionID_trans; eassumption|].
      split; [eapply sameButConnectionID_trans; eassumption|].
      split.
      { intros Hne. rewrite I3; [apply Ks, Hne|].
        rewrite (Ks Hne). exact Hne. }
      split.
      { intros Hne. rewrite I4; [apply Kd, Hne|].
        rewrite (Kd Hne). exact Hne. }
      split; lia.
    + rewrite length_app.
      split; [exact Fs|]. split; [exact Fd|]. split; [exact Ks|].
      split; [exact Kd|]. split; lia.
    + rewrite length_app.
      split; [exact Fs|]. split; [exact Fd|]. split; [exact Ks|].
      split; [exact Kd|]. split; lia.
Qed.

(** X11: over a whole run of CreateOpenConnections, however it ends and
    whatever the chains answer, nothing of the two chains changes but
    connection identifiers, and a connection identifier that is set at the
    start is never written again. *)
Theorem X11_identifiers_written_at_most_once (fuel : nat) envs c dst
    (maxRetries : Z) :
  let run := CreateOpenConnections fuel envs c dst maxRetries in
  sameButConnectionID c (srcEnd run)
  /\ sameButConnectionID dst (dstEnd run)
  /\ (ConnectionID (pathEnd c) <> "" -> srcEnd run = c)
  /\ (ConnectionID (pathEnd dst) <> "" -> dstEnd run = dst).
Proof.
  intros run. subst run. unfold CreateOpenConnections.
  destruct (ValidateClientPaths (envs O) c dst).
  - cbn. split; [apply sameButConnectionID_refl|].
    split; [apply sameButConnectionID_refl|]. split; reflexivity.
  - destruct (connectionLoop_invariants envs maxRetries fuel O 0 c dst [])
      as (H1 & H2 & H3 & H4 & _).
    split; [exact H1|]. split; [exact H2|]. split; assumption.
Qed.

(** X12: a run of CreateOpenConnections over [fuel] ticks calls
    ExecuteConnectionStep at most [fuel] times and submits at most one
    transaction per call; when validation fails it calls it not at all and
    returns the validation error with nothing submitted. *)
Theorem X12_one_submission_per_attempt (fuel : nat) envs c dst
    (maxRetries : Z) :
  let run := CreateOpenConnections fuel envs c dst maxRetries in
  (attempts run <= fuel)%nat
  /\ (List.length (submitted run) <= attempts run)%nat
  /\ (forall e,
        ValidateClientPaths (envs O) c dst = Some e ->
        run = mkRun (Returned (Some e)) O 0 c dst []).
Proof.
  intros run. subst run. unfold CreateOpenConnections.
  destruct (ValidateClientPaths (envs O) c dst) as [e|].
  - cbn. repeat split; try lia. intros e' H. injection H as <-. reflexivity.
  - destruct (connectionLoop_invariants envs maxRetries fuel O 0 c dst [])
      as (_ & _ & _ & _ & H5 & H6).
    cbn [List.length] in H6.
    repeat split; try lia. intros; discriminate.
Qed.

Lemma loopBody_returns_nil env maxRetries failed failed' c dst :
  value (loopBody env maxRetries failed c dst) = Ret (Return None failed') ->
  value (ExecuteConnectionStep env c dst) = Ret (true, true, None).
Proof.
  unfold loopBody.
  destruct (value (ExecuteConnectionStep env c dst))
    as [[[success lastStep] [e|]]|k]; cbn; try discriminate.
  destruct success, lastStep; cbn [andb];
    try (intros _; reflexivity); try discriminate;
    destruct (add64 failed 1 >? maxRetries); discriminate.
Qed.

Lemma connectionLoop_returns_nil envs maxRetries :
  forall fuel n failed c dst log,
    let run := connectionLoop fuel envs maxRetries n failed c dst log in
    ending run = Returned None ->
    exists k c' dst',
      attempts run = S k
      /\ value (ExecuteConnectionStep (envs k) c' dst')
         = Ret (true, true, None)
      /\ srcEnd run = srcAfter (ExecuteConnectionStep (envs k) c' dst')
      /\ dstEnd run = dstAfter (ExecuteConnectionStep (envs k) c' dst')
      /\ sameButConnectionID c c' /\ sameButConnectionID dst dst'.
Proof.
  induction fuel as [|fuel IH]; intros n failed c dst log run; subst run;
    [discriminate|].
  cbn [connectionLoop].
  destruct (loopBody_chains (envs n) maxRetries failed c dst)
    as (Hs & Hd & _).
  destruct (ExecuteConnectionStep_frame (envs n) c dst) as (Fs & Fd & _).
  destruct (value (loopBody (envs n) maxRetries failed c dst))
    as [[failed'|err failed']|k] eqn:Hv; cbn [ending]; try discriminate.
  - intros Hend. rewrite Hs, Hd in Hend.
    destruct (IH _ _ _ _ _ Hend)
      as (k & c' & dst' & H1 & H2 & H3 & H4 & H5 & H6).
    rewrite Hs, Hd.
    exists k, c', dst'.
    repeat (split; [assumption|]).
    split; eapply sameButConnectionID_trans; eassumption.
  - intros Hend. injection Hend as ->.
    apply loopBody_returns_nil in Hv.
    exists n, c, dst. cbn [attempts srcEnd dstEnd].
    rewrite Hs, Hd.
    repeat (split; [first [assumption | reflexivity]|]).
    split; apply sameButConnectionID_refl.
Qed.

(** X13: CreateOpenConnections returns nil only when validation passed and
    the step of its last attempt returned (true, true, nil), on chains that
    differ from the ones handed in by connection identifiers at most.  The
    other way round a step that returns (true, true, nil) ends the loop with
    nil when the debug flag is off; with the flag on, the loop returns the
    error of the logging queries when one of them fails, although the
    handshake step succeeded. *)
Theorem X13_nil_only_after_last_step (fuel : nat) envs c dst
    (maxRetries : Z) :
  let run := CreateOpenConnections fuel envs c dst maxRetries in
  (ending run = Returned None ->
   ValidateClientPaths (envs O) c dst = None
   /\ exists k c' dst',
        attempts run = S k
        /\ value (ExecuteConnectionStep (envs k) c' dst')
           = Ret (true, true, None)
        /\ srcEnd run = srcAfter (ExecuteConnectionStep (envs k) c' dst')
        /\ dstEnd run = dstAfter (ExecuteConnectionStep (envs k) c' dst')
        /\ sameButConnectionID c c' /\ sameButConnectionID dst dst')
  /\ (forall env failed src' dst',
        let r := ExecuteConnectionStep env src' dst' in
        value r = Ret (true, true, None) ->
        (debug (srcAfter r) = false ->
           value (loopBody env maxRetries failed src' dst')
           = Ret (Return None failed))
        /\ (forall e,
              debug (srcAfter r) = true ->
              GetLatestLightHeights env (srcAfter r) (dstAfter r) = Err e ->
              value (loopBody env maxRetries failed src' dst')
              = Ret (Return (Some e) failed))
        /\ (forall srcH dstH e,
              debug (srcAfter r) = true ->
              GetLatestLightHeights env (srcAfter r) (dstAfter r)
              = Ok (srcH, dstH) ->
              snd (QueryConnectionPair env (srcAfter r) (dstAfter r) srcH
                     dstH) = Some e ->
              value (loopBody env maxRetries failed src' dst')
              = Ret (Return (Some e) failed))).
Proof.
  intros run. split.
  - subst run. unfold CreateOpenConnections.
    destruct (ValidateClientPaths (envs O) c dst) as [e|];
      [discriminate|].
    intros Hend. split; [reflexivity|].
    exact (connectionLoop_returns_nil envs maxRetries fuel O 0 c dst []
             Hend).
  - intros env failed src' dst' r Hv. subst r.
    unfold loopBody. rewrite Hv. cbn [andb].
    split; [|split].
    + intros ->. reflexivity.
    + intros e -> ->. reflexivity.
    + intros srcH dstH e -> -> Hq.
      destruct (QueryConnectionPair env _ _ srcH dstH) as [[? ?] err].
      cbn in Hq. subst err. reflexivity.
Qed.





End ConnectionFacts.


(** ** cmd/lite.go *)

Section LiteFacts.

Context {Cfg Client Response SignedHeader ValidatorSet : Type}.
Implicit Types (w : Lite.World Cfg Client Response SignedHeader
                      ValidatorSet).
Implicit Types (m : @Lite.ClientMap Client).
Implicit Types (f : Lite.Flags).

Lemma chainToStart_eq w f (chain : Lite.Chain Cfg) (opts : Lite.TrustOptions) :
  Lite.chainToStart w f chain opts
  = Lite.mkChain (Lite.config chain)
      (Lite.mkTrustOptions
         (if Lite.trustingPeriod f >? 0
          then Lite.DurationString w (Lite.trustingPeriod f)
          else Lite.Period (Lite.TrustOptionsOf chain))
         (Lite.Height opts) (Lite.Hash opts)).
Proof.
  unfold Lite.chainToStart.
  destruct (Lite.trustingPeriod f >? 0);
    destruct (Nat.ltb 0 (List.length (Lite.trustedHash f))
              && (Lite.trustedHeight f >? 0))%bool;
    reflexivity.
Qed.




(** X16: the chain lite start hands to NewLiteClient has the trust height
    and hash that were downloaded from the URL, and as period the
    --trusting-period flag when it is positive and the configured period
    otherwise.  The --trusted-hash and --trusted-height flags have no effect
    on what the command does. *)
Theorem X16_liteStart_trust_options w f m (chainID : string)
    (hash : bytes) (height : Z) :
  (forall chain opts,
     Lite.chainToStart w f chain opts
     = Lite.mkChain (Lite.config chain)
         (Lite.mkTrustOptions
            (if Lite.trustingPeriod f >? 0
             then Lite.DurationString w (Lite.trustingPeriod f)
             else Lite.Period (Lite.TrustOptionsOf chain))
            (Lite.Height opts) (Lite.Hash opts)))
  /\ Lite.liteStart w
       (Lite.mkFlags hash height (Lite.trustingPeriod f) (Lite.url f)) m
       chainID
     = Lite.liteStart w f m chainID.
Proof.
  split; [intros; apply chainToStart_eq|].
  unfold Lite.liteStart. cbn [Lite.url].
  destruct (negb (Lite.Exists w chainID)); [reflexivity|].
  destruct (Lite.running m chainID); [reflexivity|].
  destruct (Lite.GetChain w chainID) as [chain|e]; [|reflexivity].
  destruct (Lite.httpGet w (Lite.url f)) as [res|e]; [|reflexivity].
  destruct (Lite.ReadAll w res) as [bz|e]; [|reflexivity].
  destruct (Lite.Unmarshal w bz) as [opts|e]; [|reflexivity].
  rewrite !chainToStart_eq. reflexivity.
Qed.


Lemma delete_same m (k : string) : Lite.delete k m k = None.
Proof. unfold Lite.delete. now rewrite String.eqb_refl. Qed.

Lemma delete_other m (k k' : string) :
  k' <> k -> Lite.delete k m k' = m k'.
Proof.
  intros Hne. unfold Lite.delete.
  destruct (String.eqb_spec k' k); [contradiction|reflexivity].
Qed.

(** Without an entry both query commands refuse. *)
Lemma queries_refuse_without_entry w m (chainID : string)
    (arg : option string) :
  m chainID = None ->
  let refusal :=
    Lite.mkRan
      (Lite.Returns
         (Some (if Lite.Exists w chainID
                then Lite.notRunning chainID
                else Lite.notConfigured chainID))) m [] in
  Lite.liteGetHeader w m chainID arg = refusal
  /\ Lite.liteGetValidators w m chainID arg = refusal.
Proof.
  intros Hnone refusal. subst refusal.
  unfold Lite.liteGetHeader, Lite.liteGetValidators, Lite.running.
  rewrite Hnone. destruct (Lite.Exists w chainID); split; reflexivity.
Qed.

(** X18: lite delete returns nil exactly when the chain had no entry or its
    client was cleaned up without error.  The chain then has no entry, the
    other entries are as before, the header and validators commands refuse
    it, and deleting it again returns nil and changes nothing.  When
    Cleanup fails, its error is returned and the entry stays. *)
Theorem X18_liteDelete_removes_entry w m (chainID : string) :
  let r := Lite.liteDelete w m chainID in
  (Lite.returned r = Lite.Returns None <->
   m chainID = None
   \/ exists lc, m chainID = Some (Some lc) /\ Lite.Cleanup w lc = None)
  /\ (Lite.returned r = Lite.Returns None ->
      Lite.lcMap r chainID = None
      /\ (forall k, k <> chainID -> Lite.lcMap r k = m k)
      /\ (forall arg,
            let refusal :=
              Lite.mkRan
                (Lite.Returns
                   (Some (if Lite.Exists w chainID
                          then Lite.notRunning chainID
                          else Lite.notConfigured chainID)))
                (Lite.lcMap r) [] in
            Lite.liteGetHeader w (Lite.lcMap r) chainID arg = refusal
            /\ Lite.liteGetValidators w (Lite.lcMap r) chainID arg = refusal)
      /\ Lite.returned (Lite.liteDelete w (Lite.lcMap r) chainID)
         = Lite.Returns None
      /\ forall k,
           Lite.lcMap (Lite.liteDelete w (Lite.lcMap r) chainID) k
           = Lite.lcMap r k)
  /\ (forall lc e,
        m chainID = Some (Some lc) -> Lite.Cleanup w lc = Some e ->
        r = Lite.mkRan (Lite.Returns (Some e)) m []).
Proof.
  intros r. subst r. unfold Lite.liteDelete, Lite.lookup.
  assert (Hdeleted :
    Lite.delete chainID m chainID = None
    /\ (forall k, k <> chainID -> Lite.delete chainID m k = m k)
    /\ (forall arg,
          let refusal :=
            Lite.mkRan
              (Lite.Returns
                 (Some (if Lite.Exists w chainID
                        then Lite.notRunning chainID
                        else Lite.notConfigured chainID)))
              (Lite.delete chainID m) [] in
          Lite.liteGetHeader w (Lite.delete chainID m) chainID arg = refusal
          /\ Lite.liteGetValidators w (Lite.delete chainID m) chainID arg
             = refusal)
    /\ Lite.returned (Lite.liteDelete w (Lite.delete chainID m) chainID)
       = Lite.Returns None
    /\ forall k,
         Lite.lcMap (Lite.liteDelete w (Lite.delete chainID m) chainID) k
         = Lite.delete chainID m k).
  { split; [apply delete_same|].
    split; [intros k Hk; now apply delete_other|].
    split.
    { intros arg. apply queries_refuse_without_entry, delete_same. }
    unfold Lite.liteDelete, Lite.lookup. rewrite delete_same.
    cbn [Lite.returned Lite.lcMap]. split; [reflexivity|].
    intros k. unfold Lite.delete.
    destruct (String.eqb k chainID); reflexivity. }
  destruct (m chainID) as [[lc|]|] eqn:Hm.
  - destruct (Lite.Cleanup w lc) as [e|] eqn:Hc;
      cbn [Lite.returned Lite.lcMap].
    + split.
      { split; [discriminate|].
        intros [H | (lc' & H & Hc')]; [discriminate|].
        injection H as <-. rewrite Hc in Hc'. discriminate. }
      split; [discriminate|].
      intros lc' e' H Hc'. injection H as <-.
      rewrite Hc in Hc'. injection Hc' as <-. reflexivity.
    + split.
      { split; [intros _; right; exists lc; auto | reflexivity]. }
      split; [intros _; exact Hdeleted|].
      intros lc' e' H Hc'. injection H as <-.
      rewrite Hc in Hc'. discriminate.
  - cbn [Lite.returned Lite.lcMap].
    split.
    { split; [discriminate|].
      intros [H | (lc' & H & _)]; discriminate. }
    split; [discriminate|]. intros; discriminate.
  - cbn [Lite.returned Lite.lcMap].
    split; [split; [intros _; left; reflexivity | reflexivity]|].
    split; [intros _; exact Hdeleted|]. intros; discriminate.
Qed.

(** X19: the header and validators commands never change lcMap, and they
    print exactly one item when they return nil and nothing otherwise.  A
    height argument that parses to -1 stands for the client's first trusted
    height. *)
Theorem X19_queries_read_only w m (chainID : string) (arg : option string) :
  let h := Lite.liteGetHeader w m chainID arg in
  let v := Lite.liteGetValidators w m chainID arg in
  Lite.lcMap h = m /\ Lite.lcMap v = m
  /\ (Lite.returned h = Lite.Returns None <->
      exists hdr, Lite.printed h = [Lite.PrintedHeader hdr])
  /\ (Lite.returned h <> Lite.Returns None -> Lite.printed h = [])
  /\ (Lite.returned v = Lite.Returns None <->
      exists vals, Lite.printed v = [Lite.PrintedValidators vals])
  /\ (Lite.returned v <> Lite.Returns None -> Lite.printed v = [])
  /\ (forall s lc first,
        arg = Some s ->
        Lite.Exists w chainID = true ->
        m chainID = Some (Some lc) ->
        Lite.ParseInt w s = Ok (-1) ->
        Lite.FirstTrustedHeight w lc = Ok first ->
        h = match Lite.TrustedHeader w lc first with
            | Ok hdr => Lite.mkRan (Lite.Returns None) m
                          [Lite.PrintedHeader hdr]
            | Err e => Lite.mkRan (Lite.Returns (Some e)) m []
            end
        /\ v = match Lite.TrustedValidatorSet w lc first with
               | Ok vals => Lite.mkRan (Lite.Returns None) m
                              [Lite.PrintedValidators vals]
               | Err e => Lite.mkRan (Lite.Returns (Some e)) m []
               end).
Proof.
  intros h v. subst h v.
  split; [|split; [|split; [|split; [|split; [|split]]]]].
  7:{ intros s lc first -> Hex Hm Hparse Hfirst.
      unfold Lite.liteGetHeader, Lite.liteGetValidators, Lite.running,
        Lite.withClient, Lite.lookup.
      rewrite Hex, Hm, Hparse, Hfirst. cbn.
      destruct (Lite.TrustedHeader w lc first);
        destruct (Lite.TrustedValidatorSet w lc first); split; reflexivity. }
  all: unfold Lite.liteGetHeader, Lite.liteGetValidators, Lite.running,
         Lite.withClient, Lite.lookup;
       destruct (Lite.Exists w chainID); cbn [negb];
       destruct (m chainID) as [[lc|]|]; cbn [negb];
       repeat match goal with
         | |- context [match ?x with _ => _ end] => destruct x eqn:?
         end;
       cbn [Lite.lcMap Lite.returned Lite.printed];
       try reflexivity;
       try (split; [intros H; first [discriminate H | eauto]
                   | intros [? H]; first [discriminate H | reflexivity]]);
       try (intros H; first [reflexivity | contradiction H; reflexivity]).
Qed.

End LiteFacts.


(** ** The further statements at work *)

Lemma X1_witness :
  msgProofHeight
    (@PathMsgs.ConnTry string string string "ibc" ["1.0.0"] (pathEnd ibc0)
       (pathEnd ibc1) (conn INIT) (PathMsgs.mkConsensusStateResponse "proof")
       10 "relayer on ibc0") = Some 10
  /\ PathMsgs.chanMsgProofHeight
       (@PathMsgs.ChanCloseConfirm string nat (pathEnd ibc0)
          Examples.transferChannel "relayer on ibc0") = Some 10.
Proof.
  destruct (@X1_handshake_proof_heights string string string nat "ibc"
              ["1.0.0"] "1.0.0" "ics20-1" (pathEnd ibc0) (pathEnd ibc1)
              (conn INIT) (PathMsgs.mkConsensusStateResponse "proof") 10
              Examples.transferChannel "relayer on ibc0")
    as (H1 & _ & _ & _ & _ & _ & H7).
  - unfold two64. cbn. lia.
  - unfold two64. cbn. lia.
  - split; [exact H1 | exact H7].
Defined.

Lemma X2_witness :
  PathMsgs.msgPacket
    (@PathMsgs.PacketMsg string string string string Examples.address
       Examples.chan1 Examples.chan0 [] 100 0 42
       (PathMsgs.mkCommitmentResponse "proof" 9))
  = Some (NewChanPacket [] 42 "bank" "ibconechan" "bank" "ibczerochan" 100 0)
  /\ PathMsgs.msgPacket
       (@PathMsgs.PacketMsg string string string string Examples.address
          Examples.chan1 Examples.chan0 [] 100 0 (-1)
          (PathMsgs.mkCommitmentResponse "proof" 9))
     = Some
         (NewChanPacket [] maxUint64 "bank" "ibconechan" "bank" "ibczerochan"
            100 0).
Proof.
  split.
  - refine (proj1 (@X2_packet_messages_agree string string string string
                     Examples.address Examples.chan1 Examples.chan0 [] [] 100
                     0 42 (PathMsgs.mkCommitmentResponse "proof" 9) "proof"
                     "proof" 9 9 "relayer on ibc0" _)).
    lia.
  - refine (proj1 (@X2_packet_messages_agree string string string string
                     Examples.address Examples.chan1 Examples.chan0 [] [] 100
                     0 (-1) (PathMsgs.mkCommitmentResponse "proof" 9) "proof"
                     "proof" 9 9 "relayer on ibc0" _)).
    lia.
Defined.

Lemma X3_witness : PathMsgs.getOrder (pathEnd Examples.chan0) = PathMsgs.ORDERED.
Proof.
  apply (proj1 (proj2 (X3_getOrder_ignores_case (pathEnd Examples.chan0)
                         eq_refl))).
  reflexivity.
Defined.

Lemma X4_witness :
  QueryLatestHeights (Examples.late (unreachable "ibc1"
                                       (world INIT INIT accepted))) ibc0 ibc1
  = QueryLatestHeights (unreachable "ibc1" (world INIT INIT accepted)) ibc0
      ibc1
  /\ QueryLatestHeights (unreachable "ibc1" (world INIT INIT accepted)) ibc0
       ibc1
     = (10, 0, Some "connection refused").
Proof.
  split; [|reflexivity].
  refine (proj1 (proj2 (proj2
            (X4_heights_and_connections_pass_through
               (unreachable "ibc1" (world INIT INIT accepted))
               (Examples.late (unreachable "ibc1" (world INIT INIT accepted)))
               ibc0 ibc1 9 9 eq_refl eq_refl eq_refl eq_refl))) _).
  left. reflexivity.
Defined.

Lemma X5_witness :
  Query.QueryChannelPair (Examples.providers Examples.threeChannels)
    Examples.chan0 Examples.chan1 9 9 "ibconechan" "ibczerochan" "bank"
    "bank"
  = (Some "channel", Some "channel", None).
Proof.
  apply (proj1 (proj2 (X5_channel_pair_and_light_headers_all_or_nothing
                         (Examples.providers Examples.threeChannels)
                         Examples.chan0 Examples.chan1 9 9 "ibconechan"
                         "ibczerochan" "bank" "bank")));
    reflexivity.
Defined.

Lemma X6_witness :
  Query.QueryChannel (Examples.providers Examples.threeChannels)
    Examples.chan0 "ibczerochan"
  = (Some (Query.mkIdentifiedChannel "ibczerochan" "bank" tt), None)
  /\ Query.QueryChannel (Examples.providers Examples.threeChannels)
       Examples.chan0 "ibctwochan"
     = (None,
        Some ("channel{ibctwochan} not found for [ibc0] -> "
              ++ "client{ibconeclient}@connection{ibconeconn}")).
Proof.
  split; [reflexivity|].
  apply (proj1 (proj2 (proj2 (X6_QueryChannel_finds_first_match
                                (Examples.providers Examples.threeChannels)
                                Examples.chan0 "ibctwochan"))
                 10 Examples.threeChannels eq_refl eq_refl)).
  intros x [<- | [<- | [<- | []]]]; discriminate.
Defined.

Lemma X9_witness :
  sent (InitializeConnection (world INIT INIT accepted) ibc0 fresh1 h0 h1 sh)
  = [ mkSubmission Dst
        [ UpdateClient (pathEnd fresh1) h0 "relayer on ibc1";
          openTry (pathEnd fresh1) ibc0 "relayer on ibc1" ] ].
Proof.
  refine (proj1 (X9_InitializeConnection_submits_where_it_builds
                   (world INIT INIT accepted) ibc0 fresh1 h0 h1 sh
                   (mkSubmission Dst
                      [ UpdateClient (pathEnd fresh1) h0 "relayer on ibc1";
                        openTry (pathEnd fresh1) ibc0 "relayer on ibc1" ])
                   _)).
  left. reflexivity.
Defined.

Lemma X13_witness :
  exists k c' dst',
    attempts (CreateOpenConnections 5 (fun _ => world TRYOPEN OPEN accepted)
                ibc0 ibc1 3) = S k
    /\ value (ExecuteConnectionStep (world TRYOPEN OPEN accepted) c' dst')
       = Ret (true, true, None).
Proof.
  destruct (proj1 (X13_nil_only_after_last_step 5
                     (fun _ => world TRYOPEN OPEN accepted) ibc0 ibc1 3)
              eq_refl)
    as (_ & k & c' & dst' & Hk & Hv & _).
  exists k, c', dst'. split; assumption.
Defined.



Lemma X18_witness :
  Lite.returned
    (Lite.liteDelete (Examples.liteWorld (Some "client", None))
       (Lite.insert "ibc0" (Some "client") Examples.noClients) "ibc0")
  = Lite.Returns None.
Proof.
  apply (proj2 (proj1 (X18_liteDelete_removes_entry
                         (Examples.liteWorld (Some "client", None))
                         (Lite.insert "ibc0" (Some "client")
                            Examples.noClients) "ibc0"))).
  right. exists "client". split; reflexivity.
Defined.
